(** * OnTask matrix API: merge-request handling and restricted file uploads

    A shallow embedding of [src/matrix/api.py] (the [MatrixOps] and
    [MatrixMerge] REST views) and of [src/ontask/forms.py]
    ([RestrictedFileField]).

    Python strings are [string]; data-frame column indexes are [list string];
    Python sets are stdpp [gset]s; the HTTP handlers run in a small
    state-and-exception monad over the data base, with a log of the calls
    made to the collaborators that live outside these files
    ([pandas_db], [ops], [workflow.ops], the serializers). *)

From stdpp Require Import base decidable option list strings pretty gmap sets.
From Stdlib Require Import ZArith Lia.

(** ** Data frames and wire data *)

(** A cell of a table. *)
Inductive Scalar : Type :=
| SNull
| SBool (b : bool)
| SNum (z : Z)
| SStr (s : string).

(** The wire format of a table: column name to list of cells. *)
Definition Wire : Type := list (string * list Scalar).

(** A pandas [DataFrame]: named columns, in order. *)
Record DataFrame : Type := { frame_columns : list (string * list Scalar) }.

(** [df.columns] *)
Definition columns (df : DataFrame) : list string := (frame_columns df).*1.

Fixpoint find_column (name : string) (cols : list (string * list Scalar))
    : option (list Scalar) :=
  match cols with
  | [] => None
  | (n, c) :: rest => if bool_decide (n = name) then Some c else find_column name rest
  end.

(** Python exceptions that the handlers raise or let escape. *)
Inductive PyExn : Type :=
| APIException (detail : string)
| Http404
| ValidationError (message : string)
| KeyError (key : string)
| TypeError
| AttributeError.

(** ** Column reconciliation ([MatrixMerge.put], lines 184-212) *)

Module Reconcile.

(** [colname + '_{0}'.format(i)] *)
Definition suffixed (colname : string) (i : nat) : string :=
  colname +:+ "_" +:+ pretty i.

(** The [while True] loop of lines 206-211.  [i] is the value of the loop
    counter on entry to an iteration; [fuel] bounds the number of iterations
    that are unfolded. *)
Fixpoint rename_loop (fuel : nat) (i : nat) (colname : string)
    (dst_columns : list string) : option string :=
  match fuel with
  | O => None
  | S fuel' =>
      let i := S i in
      let new_name := suffixed colname i in
      if bool_decide (new_name ∉ dst_columns)
      then Some new_name
      else rename_loop fuel' i colname dst_columns
  end.

(** One pass of the [for colname in list(src_df.columns)] loop body: the name
    appended to [autorename_column_names]. *)
Definition autorename_one (fuel : nat) (right_on : string)
    (dst_columns : list string) (colname : string) : option string :=
  if bool_decide (colname = right_on) then Some colname
  else if bool_decide (colname ∉ dst_columns) then Some colname
  else rename_loop fuel 0 colname dst_columns.

(** The whole [for] loop: names are appended in source-column order. *)
Fixpoint autorename_loop (fuel : nat) (right_on : string)
    (dst_columns : list string) (src_columns : list string)
    : option (list string) :=
  match src_columns with
  | [] => Some []
  | colname :: rest =>
      match autorename_one fuel right_on dst_columns colname with
      | None => None
      | Some name =>
          match autorename_loop fuel right_on dst_columns rest with
          | None => None
          | Some names => Some (name :: names)
          end
      end
  end.

(** The suffix search visits pairwise distinct names, so it cannot run for
    more iterations than there are destination columns plus one. *)
Definition enough_fuel (dst_columns : list string) : nat :=
  S (length dst_columns).

Definition autorename_column_names (right_on : string)
    (dst_columns src_columns : list string) : option (list string) :=
  autorename_loop (enough_fuel dst_columns) right_on dst_columns src_columns.

(** [list((set(dst_df.columns) & set(src_df.columns)) - {left_on})].  Python
    does not fix the order in which a set is listed; [elements] lists the
    same members without repetition. *)
Definition override_set (left_on : string)
    (dst_columns src_columns : list string) : gset string :=
  (list_to_set dst_columns ∩ list_to_set src_columns) ∖ {[ left_on ]}.

Definition override_columns_names (left_on : string)
    (dst_columns src_columns : list string) : list string :=
  elements (override_set left_on dst_columns src_columns).

End Reconcile.

(** ** Requests, responses and the collaborators of the views *)

Record User : Type := { username : string; is_superuser : bool }.

(** [serializer.validated_data] of a [DataFrameMergeSerializer]. *)
Record MergeRequest : Type := {
  src_df : Wire;
  how : string;
  left_on : string;
  right_on : string;
  dup_column : string
}.

(** The [merge_info] dictionary of lines 214-223. *)
Record MergeInfo : Type := {
  how_merge : string;
  dst_selected_key : string;
  src_selected_key : string;
  initial_column_names : list string;
  autorename_column_names : option (list string);
  rename_column_names : list string;
  columns_to_upload : list bool;
  override_columns_names : list string
}.

Inductive Status : Type :=
| HTTP_200_OK
| HTTP_201_CREATED
| HTTP_204_NO_CONTENT
| HTTP_400_BAD_REQUEST.

(** What a [Response] carries. *)
Inductive Body : Type :=
| FrameBody (df : option DataFrame)      (* DataFrameSerializer(frame).data *)
| WireBody (data : Wire)                 (* DataFrameSerializer(data=..).data *)
| MergeViewBody (df : option DataFrame)  (* the frame as src_df, empty parameters *)
| MergeBody (data : MergeRequest)        (* DataFrameMergeSerializer(data=..).data *)
| ErrorsBody                             (* serializer.errors *)
| NoBody.

Record Response : Type := { body : Body; status : Status }.

(** Calls that leave [api.py], in the order they are made. *)
Inductive Event : Type :=
| WorkflowLookup (pk : Z) (owner : option User)
| LockCheck (pk : Z)
| LoadFrame (pk : Z)
| StoreFrame (pk : Z) (df : DataFrame)
| DetachFrame (pk : Z)
| UniqueCheck (column : list Scalar)
| PerformMerge (pk : Z) (info : MergeInfo).

(** The code that [api.py] imports and that is not part of these files: the
    workflow model and its lock, the table store, the serializers, pandas'
    frame constructor and the merge executor.  Every property below is stated
    for an arbitrary implementation of this interface. *)
Class Backend : Type := {
  DB : Type;
  Workflow : Type;
  Request : Type;
  (* Workflow.objects.get(pk=pk[, user=user]); [None] is DoesNotExist *)
  Workflow_objects_get : DB → Z → option User → option Workflow;
  is_locked : DB → Workflow → bool;
  (* pandas_db.load_from_db(pk) *)
  load_from_db : DB → Z → option DataFrame;
  (* ops.store_dataframe_in_db(df, pk) *)
  store_dataframe_in_db : DataFrame → Z → DB → DB;
  detach_dataframe : Workflow → DB → DB;
  (* serializer.is_valid() and serializer.validated_data *)
  DataFrameSerializer : Request → option Wire;
  DataFrameMergeSerializer : Request → option MergeRequest;
  (* pd.DataFrame(data); [None] when it raises *)
  pd_DataFrame : Wire → option DataFrame;
  (* ops.detect_datetime_columns(df); [None] when it raises *)
  detect_datetime_columns : DataFrame → option DataFrame;
  is_unique_column : list Scalar → bool;
  (* ops.perform_dataframe_upload_merge(pk, dst_df, src_df, merge_info):
     [None] when it raises, otherwise its return value ([None] or a message) *)
  perform_dataframe_upload_merge :
    Z → option DataFrame → DataFrame → MergeInfo → DB → option (option string) * DB
}.

(** ** The handler monad: data base, call log, exceptions *)

Inductive Res (A : Type) : Type :=
| Ok (a : A)
| Raise (e : PyExn)
| Diverge.
Arguments Ok {A} a.
Arguments Raise {A} e.
Arguments Diverge {A}.

Section Monad.
Context `{B : Backend}.

Record World : Type := { db : DB; log : list Event }.

Definition M (A : Type) : Type := World → Res A * World.

Definition ret {A} (a : A) : M A := λ w, (Ok a, w).

Definition bind {A C} (m : M A) (k : A → M C) : M C := λ w,
  match m w with
  | (Ok a, w') => k a w'
  | (Raise e, w') => (Raise e, w')
  | (Diverge, w') => (Diverge, w')
  end.

Definition raise {A} (e : PyExn) : M A := λ w, (Raise e, w).

Definition diverge {A} : M A := λ w, (Diverge, w).

(** [if c: raise e] *)
Definition raise_if (c : bool) (e : PyExn) : M unit :=
  if c then raise e else ret tt.

Definition emit (ev : Event) : M unit := λ w,
  (Ok tt, {| db := db w; log := log w ++ [ev] |}).

Definition read {A} (f : DB → A) : M A := λ w, (Ok (f (db w)), w).

Definition write (f : DB → DB) : M unit := λ w,
  (Ok tt, {| db := f (db w); log := log w |}).
End Monad.

Notation "x <- m ;; k" := (bind m (λ x, k))
  (at level 100, m at next level, right associativity).
Notation "m ;;; k" := (bind m (λ _, k))
  (at level 100, right associativity).

(** Calls to the collaborators, logged. *)
Section Calls.
Context `{B : Backend}.

(** [Workflow.objects.get(pk=pk)] for a superuser,
    [Workflow.objects.get(pk=pk, user=user)] for anyone else. *)
Definition lookup_filter (user : User) : option User :=
  if is_superuser user then None else Some user.

Definition call_workflow_get (pk : Z) (owner : option User) : M (option Workflow) :=
  emit (WorkflowLookup pk owner) ;;;
  read (λ d, Workflow_objects_get d pk owner).

Definition call_is_locked (pk : Z) (workflow : Workflow) : M bool :=
  emit (LockCheck pk) ;;;
  read (λ d, is_locked d workflow).

Definition call_load_from_db (pk : Z) : M (option DataFrame) :=
  emit (LoadFrame pk) ;;;
  read (λ d, load_from_db d pk).

Definition call_store_dataframe_in_db (df : DataFrame) (pk : Z) : M unit :=
  emit (StoreFrame pk df) ;;;
  write (store_dataframe_in_db df pk).

Definition call_detach_dataframe (pk : Z) (workflow : Workflow) : M unit :=
  emit (DetachFrame pk) ;;;
  write (detach_dataframe workflow).

Definition call_is_unique_column (column : list Scalar) : M bool :=
  emit (UniqueCheck column) ;;;
  ret (is_unique_column column).

(** The call together with the [try ... except Exception] around it
    (lines 226-232). *)
Definition call_perform_merge (pk : Z) (dst_df : option DataFrame)
    (src : DataFrame) (info : MergeInfo) : M (option string) :=
  emit (PerformMerge pk info) ;;;
  λ w,
    match perform_dataframe_upload_merge pk dst_df src info (db w) with
    | (Some r, d') => (Ok r, {| db := d'; log := log w |})
    | (None, d') =>
        (Raise (APIException "Unable to perform merge operation"),
         {| db := d'; log := log w |})
    end.

(** [df[name]] where [df] may be [None]. *)
Definition getitem (df : option DataFrame) (name : string) : M (list Scalar) :=
  match df with
  | None => raise TypeError
  | Some d =>
      match find_column name (frame_columns d) with
      | Some c => ret c
      | None => raise (KeyError name)
      end
  end.

(** [df.columns] where [df] may be [None]. *)
Definition columns_of (df : option DataFrame) : M (list string) :=
  match df with
  | None => raise AttributeError
  | Some d => ret (columns d)
  end.

(** Truth value of what the merge executor returns. *)
Definition truthy (r : option string) : bool :=
  match r with
  | None => false
  | Some msg => negb (bool_decide (msg = EmptyString))
  end.
End Calls.

(** ** [class MatrixOps] *)

Module MatrixOps.
Section Views.
Context `{B : Backend}.
Variable user : User.   (* self.request.user *)

Definition get_object (pk : Z) : M Workflow :=
  found <- call_workflow_get pk (lookup_filter user) ;;
  match found with
  | None => raise (APIException "Incorrect object")
  | Some workflow =>
      locked <- call_is_locked pk workflow ;;
      raise_if locked (APIException "Workflow is locked by another user") ;;;
      ret workflow
  end.

Definition override (request : Request) (pk : Z) : M Response :=
  get_object pk ;;;
  match DataFrameSerializer request with
  | Some data =>
      df <- match pd_DataFrame data ≫= detect_datetime_columns with
            | Some df => ret df
            | None => raise Http404
            end ;;
      call_store_dataframe_in_db df pk ;;;
      ret {| body := WireBody data; status := HTTP_201_CREATED |}
  | None => ret {| body := ErrorsBody; status := HTTP_400_BAD_REQUEST |}
  end.

Definition get (request : Request) (pk : Z) : M Response :=
  get_object pk ;;;
  df <- call_load_from_db pk ;;
  ret {| body := FrameBody df; status := HTTP_200_OK |}.

Definition post (request : Request) (pk : Z) : M Response :=
  stored <- call_load_from_db pk ;;
  raise_if (bool_decide (is_Some stored))
    (APIException "Post request requires workflow without a matrix") ;;;
  override request pk.

Definition put (request : Request) (pk : Z) : M Response :=
  override request pk.

Definition delete (request : Request) (pk : Z) : M Response :=
  wflow <- get_object pk ;;
  call_detach_dataframe pk wflow ;;;
  ret {| body := NoBody; status := HTTP_204_NO_CONTENT |}.
End Views.
End MatrixOps.

(** ** [class MatrixMerge] *)

Module MatrixMerge.
Section Views.
Context `{B : Backend}.
Variable user : User.   (* self.request.user *)

Definition get_object (pk : Z) : M Workflow :=
  found <- call_workflow_get pk (lookup_filter user) ;;
  match found with
  | None => raise (APIException "Incorrect object")
  | Some workflow =>
      locked <- call_is_locked pk workflow ;;
      raise_if locked (APIException "Workflow is locked by another user") ;;;
      ret workflow
  end.

Definition get (request : Request) (pk : Z) : M Response :=
  get_object pk ;;;
  df <- call_load_from_db pk ;;
  ret {| body := MergeViewBody df; status := HTTP_200_OK |}.

(** Lines 184-212: the columns to drop and the renamed source columns.
    [dst_df] is not [None] here, the key lookup [dst_df[left_on]] has
    succeeded before. *)
Definition reconcile (dup_column left_on right_on : string)
    (dst_df : option DataFrame) (src : DataFrame)
    : M (list string * option (list string)) :=
  if bool_decide (dup_column = "override") then
    dst_columns <- columns_of dst_df ;;
    ret (Reconcile.override_columns_names left_on dst_columns (columns src), None)
  else
    dst_columns <- columns_of dst_df ;;
    match Reconcile.autorename_column_names right_on dst_columns (columns src) with
    | Some names => ret ([], Some names)
    | None => diverge
    end.

(** Lines 214-223; [plan] is the pair of [override_columns_names] and
    [autorename_column_names] computed just before. *)
Definition build_merge_info (how left_on right_on : string) (src : DataFrame)
    (plan : list string * option (list string)) : MergeInfo :=
  {| how_merge := how;
     dst_selected_key := left_on;
     src_selected_key := right_on;
     initial_column_names := columns src;
     autorename_column_names := plan.2;
     rename_column_names := columns src;
     columns_to_upload := replicate (length (columns src)) true;
     override_columns_names := plan.1 |}.

Definition put (request : Request) (pk : Z) : M Response :=
  get_object pk ;;;
  dst_df <- call_load_from_db pk ;;
  match DataFrameMergeSerializer request with
  | None => ret {| body := ErrorsBody; status := HTTP_400_BAD_REQUEST |}
  | Some data =>
      src <- match pd_DataFrame (src_df data) with
             | Some df => ret df
             | None => raise (APIException "Unable to load workflow matrix")
             end ;;
      let how := how data in
      raise_if (bool_decide (how = EmptyString)
                || bool_decide (how ∉ ["left"; "right"; "outer"; "inner"]))
        (APIException "how must be one of left, right, outer or inner") ;;;
      let left_on := left_on data in
      dst_key <- getitem dst_df left_on ;;
      unique <- call_is_unique_column dst_key ;;
      raise_if (negb unique)
        (APIException ("column" +:+ left_on +:+ "does not contain a unique key.")) ;;;
      let right_on := right_on data in
      raise_if (bool_decide (right_on ∉ columns src))
        (APIException ("column " +:+ right_on +:+ " not found in data frame")) ;;;
      src_key <- getitem (Some src) right_on ;;
      unique <- call_is_unique_column src_key ;;
      raise_if (negb unique)
        (APIException ("column" +:+ right_on +:+ "does not contain a unique key.")) ;;;
      let dup_column := dup_column data in
      raise_if (bool_decide (dup_column = EmptyString)
                || bool_decide (dup_column ∉ ["override"; "rename"]))
        (APIException "dup_column must be override or rename") ;;;
      plan <- reconcile dup_column left_on right_on dst_df src ;;
      let merge_info := build_merge_info how left_on right_on src plan in
      merge_result <- call_perform_merge pk dst_df src merge_info ;;
      match merge_result with
      | Some msg =>
          if truthy merge_result then raise (APIException msg)
          else ret {| body := MergeBody data; status := HTTP_201_CREATED |}
      | None => ret {| body := MergeBody data; status := HTTP_201_CREATED |}
      end
  end.
End Views.
End MatrixMerge.

(** ** [class RestrictedFileField] ([ontask/forms.py]) *)

Module Forms.

(** The file is written for both interpreters ([from __future__ import ...]);
    they differ on [int > str]. *)
Inductive PyVersion : Type := Python2 | Python3.

(** Values a keyword argument or an attribute of the field may hold. *)
Inductive PyVal : Type :=
| PyNone
| PyInt (z : Z)
| PyStr (s : string).

(** What [FileField.clean] hands back: an uploaded file carries
    [content_type] and [size]; other values ([None], [False], the initial
    value of the field) lack these attributes. *)
Record Cleaned : Type := {
  content_type : option string;
  size : option Z
}.

Record RestrictedFileField : Type := {
  content_types : option (list string);
  max_upload_size : PyVal
}.

(** [not v] is false for these. *)
Definition truth (v : PyVal) : bool :=
  match v with
  | PyNone => false
  | PyInt z => negb (z =? 0)%Z
  | PyStr s => negb (bool_decide (s = EmptyString))
  end.

(** [__init__]: [kw_content_types] and [kw_max_upload_size] are the popped
    keyword arguments ([None] when absent); [MAX_UPLOAD_SIZE] is
    [ontask.ontask_prefs.MAX_UPLOAD_SIZE]. *)
Definition init (MAX_UPLOAD_SIZE : Z) (kw_content_types : option (list string))
    (kw_max_upload_size : PyVal) : RestrictedFileField :=
  {| content_types := kw_content_types;
     max_upload_size :=
       if truth kw_max_upload_size then kw_max_upload_size
       else PyStr (pretty MAX_UPLOAD_SIZE) |}.

(** [a > b] for an integer [a].  Python 2 orders numbers below strings and
    [None] below everything; Python 3 refuses mixed comparisons. *)
Definition int_gt (v : PyVersion) (a : Z) (b : PyVal) : Res bool :=
  match b with
  | PyInt m => Ok (m <? a)%Z
  | PyStr _ => match v with Python2 => Ok false | Python3 => Raise TypeError end
  | PyNone => match v with Python2 => Ok true | Python3 => Raise TypeError end
  end.

Section Clean.
Variable version : PyVersion.
(** [django.template.defaultfilters.filesizeformat] *)
Variable filesizeformat : PyVal → string.

(** [clean], from the value [data] that [super().clean] returned.  A
    missing attribute raises [AttributeError], which the [except] clause
    swallows; anything else escapes. *)
Definition clean (self : RestrictedFileField) (data : Cleaned) : Res Cleaned :=
  match content_type data with
  | None => Ok data
  | Some ct =>
      match content_types self with
      | None => Raise TypeError
      | Some allowed =>
          if bool_decide (ct ∈ allowed) then
            match size data with
            | None => Ok data
            | Some sz =>
                match int_gt version sz (max_upload_size self) with
                | Ok true =>
                    Raise (ValidationError
                      ("File size must be under "
                       +:+ filesizeformat (max_upload_size self)
                       +:+ ". Current file size is "
                       +:+ filesizeformat (PyInt sz) +:+ "."))
                | Ok false => Ok data
                | Raise e => Raise e
                | Diverge => Diverge
                end
            end
          else
            Raise (ValidationError ("File type (" +:+ ct +:+ ") is not supported."))
      end
  end.
End Clean.

Definition is_validation_error {A} (r : Res A) : bool :=
  match r with
  | Raise (ValidationError _) => true
  | _ => false
  end.

End Forms.

(** ** A small concrete backend, used to run the handlers on examples *)

Module Demo.

#[global] Instance Scalar_eq_dec : EqDecision Scalar.
Proof. solve_decision. Defined.

Record DemoDB : Type := {
  frames : gmap Z DataFrame;   (* the table attached to each workflow *)
  owners : gmap Z string;      (* the owner of each workflow *)
  locks : gset Z               (* workflows locked by another session *)
}.

Inductive DemoRequest : Type :=
| FramePayload (data : Wire)
| MergePayload (data : MergeRequest)
| Malformed.

Definition demo_get (d : DemoDB) (pk : Z) (owner : option User) : option Z :=
  match owners d !! pk with
  | None => None
  | Some o =>
      match owner with
      | None => Some pk
      | Some u => if bool_decide (username u = o) then Some pk else None
      end
  end.

Definition demo_store (df : DataFrame) (pk : Z) (d : DemoDB) : DemoDB :=
  {| frames := <[pk := df]> (frames d); owners := owners d; locks := locks d |}.

Definition demo_detach (pk : Z) (d : DemoDB) : DemoDB :=
  {| frames := delete pk (frames d); owners := owners d; locks := locks d |}.

(** All columns must have the same length. *)
Definition demo_frame (w : Wire) : option DataFrame :=
  match w with
  | [] => Some {| frame_columns := [] |}
  | (_, c) :: rest =>
      if forallb (λ nc, Nat.eqb (length nc.2) (length c)) rest
      then Some {| frame_columns := w |} else None
  end.

(** A stand-in for the merge executor: it files the source frame as the new
    table of the workflow and reports success. *)
Definition demo_perform (pk : Z) (dst_df : option DataFrame) (src : DataFrame)
    (info : MergeInfo) (d : DemoDB) : option (option string) * DemoDB :=
  (Some None, demo_store src pk d).

#[global] Instance demo_backend : Backend := {|
  DB := DemoDB;
  Workflow := Z;
  Request := DemoRequest;
  Workflow_objects_get := demo_get;
  is_locked := λ d pk, bool_decide (pk ∈ locks d);
  load_from_db := λ d pk, frames d !! pk;
  store_dataframe_in_db := demo_store;
  detach_dataframe := demo_detach;
  DataFrameSerializer := λ r, match r with FramePayload w => Some w | _ => None end;
  DataFrameMergeSerializer := λ r, match r with MergePayload m => Some m | _ => None end;
  pd_DataFrame := demo_frame;
  detect_datetime_columns := Some;
  is_unique_column := λ c, bool_decide (NoDup c);
  perform_dataframe_upload_merge := demo_perform
|}.

Definition alice : User := {| username := "alice"; is_superuser := false |}.
Definition bob : User := {| username := "bob"; is_superuser := false |}.

Definition people : DataFrame :=
  {| frame_columns :=
       [("id", [SNum 1; SNum 2; SNum 3]);
        ("name", [SStr "ann"; SStr "ben"; SStr "cy"]);
        ("age", [SNum 30; SNum 41; SNum 27])] |}.

Definition incoming : Wire :=
  [("id", [SNum 2; SNum 4]); ("name", [SStr "bea"; SStr "dee"])].

(** Workflow 1 belongs to alice and has a table; workflow 2 belongs to alice,
    has a table and is locked; workflow 3 belongs to alice and is empty. *)
Definition db0 : DemoDB :=
  {| frames := {[ 1%Z := people; 2%Z := people ]};
     owners := {[ 1%Z := "alice"; 2%Z := "alice"; 3%Z := "alice" ]};
     locks := {[ 2%Z ]} |}.

Definition w0 : World := {| db := db0; log := [] |}.

(** A destination keyed by [id] that also has an [email] column, and a
    source keyed by [email]. *)
Definition contacts : DataFrame :=
  {| frame_columns :=
       [("id", [SNum 1; SNum 2]);
        ("email", [SStr "ann@example.org"; SStr "ben@example.org"])] |}.

Definition by_email : Wire :=
  [("email", [SStr "x@example.org"; SStr "y@example.org"]);
   ("name", [SStr "ann"; SStr "ben"])].

Definition w1 : World :=
  {| db := {| frames := {[ 4%Z := contacts ]};
              owners := {[ 4%Z := "alice" ]};
              locks := ∅ |};
     log := [] |}.

Definition email_merge : DemoRequest :=
  MergePayload {| src_df := by_email; how := "left"; left_on := "id";
                  right_on := "email"; dup_column := "override" |}.

Definition merge_data (how left_on right_on dup_column : string) : MergeRequest :=
  {| src_df := incoming; how := how; left_on := left_on;
     right_on := right_on; dup_column := dup_column |}.

Definition merge_request (how left_on right_on dup_column : string) : DemoRequest :=
  MergePayload (merge_data how left_on right_on dup_column).

End Demo.


(** ** Vocabulary of the statements *)

Section Vocabulary.
Context `{B : Backend}.
Implicit Types (w : World) (user : User) (pk : Z) (request : Request).

(** The workflow exists for this user and is locked by another session. *)
Definition locked_for w user pk : Prop :=
  ∃ wf, Workflow_objects_get (db w) pk (lookup_filter user) = Some wf ∧
        is_locked (db w) wf = true.

(** The workflow exists for this user and is not locked. *)
Definition open_for w user pk : Prop :=
  ∃ wf, Workflow_objects_get (db w) pk (lookup_filter user) = Some wf ∧
        is_locked (db w) wf = false.

(** The two calls that [get_object] makes. *)
Definition access_calls user pk : list Event :=
  [WorkflowLookup pk (lookup_filter user); LockCheck pk].

(** A handler refused on a locked workflow: the lock error, the data base as it
    was, and nothing in the log but the two calls of [get_object]. *)
Definition refused_as_locked {A} w user pk (out : Res A * World) : Prop :=
  out = (Raise (APIException "Workflow is locked by another user"),
         {| db := db w; log := log w ++ access_calls user pk |}).

(** Every check that [MatrixMerge.put] makes before it calls the merge
    executor passes: the workflow is there and unlocked, a table [d] is
    stored, the serializer accepts the request as [data], the source frame
    [src] can be built, [how] and [dup_column] are among the allowed
    words, and both key columns exist and are reported unique. *)
Record Validated w user pk request (data : MergeRequest) (d src : DataFrame)
    (dst_key src_key : list Scalar) : Prop := {
  v_open : open_for w user pk;
  v_dst : load_from_db (db w) pk = Some d;
  v_data : DataFrameMergeSerializer request = Some data;
  v_src : pd_DataFrame (src_df data) = Some src;
  v_how : how data ∈ ["left"; "right"; "outer"; "inner"];
  v_left : find_column (left_on data) (frame_columns d) = Some dst_key;
  v_left_unique : is_unique_column dst_key = true;
  v_right : find_column (right_on data) (frame_columns src) = Some src_key;
  v_right_unique : is_unique_column src_key = true;
  v_dup : dup_column data ∈ ["override"; "rename"]
}.

(** One of the checks of [MatrixMerge.put] turns the request down: the
    serializer, the frame construction, the join type, the destination
    key (missing, or not unique), the source key (missing, or not unique)
    or the duplicate-column policy. *)
Inductive CheckFails w pk request : Prop :=
| serializer_fails :
    DataFrameMergeSerializer request = None → CheckFails w pk request
| frame_fails data :
    DataFrameMergeSerializer request = Some data →
    pd_DataFrame (src_df data) = None → CheckFails w pk request
| how_fails data :
    DataFrameMergeSerializer request = Some data →
    how data ∉ ["left"; "right"; "outer"; "inner"] → CheckFails w pk request
| left_key_missing data d :
    DataFrameMergeSerializer request = Some data →
    load_from_db (db w) pk = Some d →
    left_on data ∉ columns d → CheckFails w pk request
| left_key_not_unique data d c :
    DataFrameMergeSerializer request = Some data →
    load_from_db (db w) pk = Some d →
    find_column (left_on data) (frame_columns d) = Some c →
    is_unique_column c = false → CheckFails w pk request
| right_key_missing data src :
    DataFrameMergeSerializer request = Some data →
    pd_DataFrame (src_df data) = Some src →
    right_on data ∉ columns src → CheckFails w pk request
| right_key_not_unique data src c :
    DataFrameMergeSerializer request = Some data →
    pd_DataFrame (src_df data) = Some src →
    find_column (right_on data) (frame_columns src) = Some c →
    is_unique_column c = false → CheckFails w pk request
| dup_column_fails data :
    DataFrameMergeSerializer request = Some data →
    dup_column data ∉ ["override"; "rename"] → CheckFails w pk request.

(** The calls of a merge request that passes every check, up to and
    including the call of the merge executor. *)
Definition merge_calls user pk (dst_key src_key : list Scalar)
    (info : MergeInfo) : list Event :=
  access_calls user pk ++
  [LoadFrame pk; UniqueCheck dst_key; UniqueCheck src_key; PerformMerge pk info].

(** [info] is the [merge_info] of lines 184-223 for the request [data], the
    destination [d] and the source [src]: the join type and the two keys of
    the request, the source columns as initial and as final names, one
    [True] per source column, and the plan of the policy -- under override
    the columns to drop and no rename list, under rename no column to drop
    and the rename list. *)
Definition planned_info (data : MergeRequest) (d src : DataFrame)
    (info : MergeInfo) : Prop :=
  (dup_column data = "override" ∧
   info = {| how_merge := how data;
             dst_selected_key := left_on data;
             src_selected_key := right_on data;
             initial_column_names := columns src;
             autorename_column_names := None;
             rename_column_names := columns src;
             columns_to_upload := replicate (length (columns src)) true;
             override_columns_names :=
               Reconcile.override_columns_names (left_on data) (columns d) (columns src) |}) ∨
  (dup_column data = "rename" ∧
   ∃ names,
     Reconcile.autorename_column_names (right_on data) (columns d) (columns src)
       = Some names ∧
     info = {| how_merge := how data;
               dst_selected_key := left_on data;
               src_selected_key := right_on data;
               initial_column_names := columns src;
               autorename_column_names := Some names;
               rename_column_names := columns src;
               columns_to_upload := replicate (length (columns src)) true;
               override_columns_names := [] |}).

(** What [MatrixMerge.put] answers once the merge executor has returned
    [r] ([None] when it raised). *)
Definition merge_answer (data : MergeRequest) (r : option (option string))
    : Res Response :=
  match r with
  | None => Raise (APIException "Unable to perform merge operation")
  | Some None => Ok {| body := MergeBody data; status := HTTP_201_CREATED |}
  | Some (Some msg) =>
      if bool_decide (msg = EmptyString)
      then Ok {| body := MergeBody data; status := HTTP_201_CREATED |}
      else Raise (APIException msg)
  end.

(** The request was turned down: an exception, or the serializer's errors
    with status 400. *)
Definition rejected (r : Res Response) : Prop :=
  match r with
  | Raise _ => True
  | Ok resp => resp = {| body := ErrorsBody; status := HTTP_400_BAD_REQUEST |}
  | Diverge => False
  end.

End Vocabulary.

(** ** [urlpatterns] ([dataops/urls.py]) *)

Module Urls.

(** The view functions the patterns point to; their bodies are in
    [dataops/views.py], [dataops/csvupload.py] and [dataops/upload.py]. *)
Inductive View : Type :=
| views_dataops
| views_uploadmerge
| views_row_filter
| views_row_update
| views_row_create
| csvupload_csvupload1
| upload_upload_s2
| upload_upload_s3
| upload_upload_s4.

(** [url(r'^body$', view, name=name)].  Every regular expression of the
    file is a literal between [^] and [$]; [body] is that literal. *)
Record UrlPattern : Type := {
  body_of : string;
  view_of : View;
  name_of : string
}.

Definition urlpatterns : list UrlPattern :=
  [ {| body_of := EmptyString; view_of := views_dataops; name_of := "list" |};
    {| body_of := "uploadmerge/"; view_of := views_uploadmerge; name_of := "uploadmerge" |};
    {| body_of := "rowfilter/"; view_of := views_row_filter; name_of := "rowfilter" |};
    {| body_of := "rowupdate/"; view_of := views_row_update; name_of := "rowupdate" |};
    {| body_of := "rowcreate/"; view_of := views_row_create; name_of := "rowcreate" |};
    {| body_of := "csvupload1/"; view_of := csvupload_csvupload1; name_of := "csvupload1" |};
    {| body_of := "upload_s2/"; view_of := upload_upload_s2; name_of := "upload_s2" |};
    {| body_of := "upload_s3/"; view_of := upload_upload_s3; name_of := "upload_s3" |};
    {| body_of := "upload_s4/"; view_of := upload_upload_s4; name_of := "upload_s4" |} ].

Definition newline : string := String (Ascii.ascii_of_nat 10) EmptyString.

(** [re.search(r'^body$', path)] for a literal [body]: [^] anchors the match
    at the start, [$] matches at the end of [path] or just before a newline
    that ends it. *)
Definition matches (body path : string) : bool :=
  bool_decide (path = body) || bool_decide (path = body +:+ newline).

(** The resolver tries the patterns in order and stops at the first match. *)
Fixpoint resolve (patterns : list UrlPattern) (path : string) : option UrlPattern :=
  match patterns with
  | [] => None
  | p :: rest => if matches (body_of p) path then Some p else resolve rest path
  end.

End Urls.

(** ** More requests for the concrete backend *)

Module Demo2.
Import Demo.

(** A destination whose [id] column repeats a value. *)
Definition roster : DataFrame :=
  {| frame_columns :=
       [("id", [SNum 7; SNum 7]); ("name", [SStr "eve"; SStr "eli"])] |}.

(** Workflow 5 belongs to alice and holds [roster]. *)
Definition w2 : World :=
  {| db := {| frames := {[ 5%Z := roster ]};
              owners := {[ 5%Z := "alice" ]};
              locks := ∅ |};
     log := [] |}.

(** A source whose [id] column repeats a value. *)
Definition repeated : Wire :=
  [("id", [SNum 2; SNum 2]); ("name", [SStr "bea"; SStr "dee"])].

Definition repeated_data : MergeRequest :=
  {| src_df := repeated; how := "left"; left_on := "id"; right_on := "id";
     dup_column := "rename" |}.

(** A payload whose columns differ in length. *)
Definition ragged : Wire :=
  [("id", [SNum 2; SNum 4]); ("name", [SStr "bea"])].

(** An uploaded CSV file of [sz] bytes. *)
Definition csv_upload (sz : Z) : Forms.Cleaned :=
  {| Forms.content_type := Some "text/csv"; Forms.size := Some sz |}.

(** A value without the attributes of an upload. *)
Definition no_upload : Forms.Cleaned :=
  {| Forms.content_type := None; Forms.size := None |}.

(** A stand-in for [filesizeformat]: the number as it is. *)
Definition plain_size (v : Forms.PyVal) : string :=
  match v with
  | Forms.PyInt z => pretty z
  | Forms.PyStr s => s
  | Forms.PyNone => "None"
  end.

End Demo2.

(** ** Further vocabulary *)

Section MoreVocabulary.
Context `{B : Backend}.
Implicit Types (w : World) (user : User) (pk : Z) (request : Request).

(** The lookup of [get_object] finds no workflow for this user. *)
Definition unknown_for w user pk : Prop :=
  Workflow_objects_get (db w) pk (lookup_filter user) = None.

(** A handler refused for an unknown workflow: the error, the data base as
    it was, and only the lookup in the log. *)
Definition refused_as_unknown {A} w user pk (out : Res A * World) : Prop :=
  out = (Raise (APIException "Incorrect object"),
         {| db := db w; log := log w ++ [WorkflowLookup pk (lookup_filter user)] |}).

(** The world after the calls [evs] that left the data base alone. *)
Definition after_calls w (evs : list Event) : World :=
  {| db := db w; log := log w ++ evs |}.

(** An event that writes to the data base. *)
Definition is_write (ev : Event) : bool :=
  match ev with
  | StoreFrame _ _ | DetachFrame _ | PerformMerge _ _ => true
  | _ => false
  end.

(** The four parameters of the request and the three lists about the source
    columns, as the merge executor expects them side by side.  Under the
    override policy there is no rename list; under the rename policy there
    is one, with a name for each source column, and nothing to drop. *)
Definition aligned (data : MergeRequest) (src : DataFrame) (info : MergeInfo) : Prop :=
  how_merge info = how data ∧
  dst_selected_key info = left_on data ∧
  src_selected_key info = right_on data ∧
  initial_column_names info = columns src ∧
  rename_column_names info = columns src ∧
  columns_to_upload info = replicate (length (columns src)) true ∧
  ((dup_column data = "override" ∧ autorename_column_names info = None) ∨
   (dup_column data = "rename" ∧
    override_columns_names info = [] ∧
    ∃ names, autorename_column_names info = Some names ∧
             length names = length (columns src))).

End MoreVocabulary.

(** * Properties *)

(** ** The suffix search *)

Section RenameLoop.
Import Reconcile.

#[local] Instance suffixed_inj colname : Inj (=) (=) (suffixed colname).
Proof.
  intros i j Hij. unfold suffixed in Hij.
  apply (inj (String.app colname)) in Hij.
  apply (inj (String.app "_")) in Hij.
  by apply (inj pretty) in Hij.
Qed.

(** What the loop returns is the first free suffix after [i]. *)
Lemma rename_loop_Some fuel i colname dst name :
  rename_loop fuel i colname dst = Some name →
  ∃ k, (i < k ≤ i + fuel) ∧ name = suffixed colname k ∧ (name ∉ dst) ∧
       ∀ j, i < j < k → suffixed colname j ∈ dst.
Proof.
  revert i. induction fuel as [|fuel IH]; intros i; simpl; [done|].
  case_bool_decide as Hfree.
  - intros [= <-]. exists (S i). split_and!; [lia|lia|done|done|intros; lia].
  - intros Hloop. apply IH in Hloop as (k & Hk & -> & Hout & Hbelow).
    exists k. split_and!; [lia|lia|done|done|].
    intros j Hj. destruct (decide (j = S i)) as [->|].
    + done.
    + apply Hbelow. lia.
Qed.

(** When the fuel runs out, every name tried was taken. *)
Lemma rename_loop_None fuel i colname dst :
  rename_loop fuel i colname dst = None →
  ∀ j, i < j ≤ i + fuel → suffixed colname j ∈ dst.
Proof.
  revert i. induction fuel as [|fuel IH]; intros i; simpl; [intros; lia|].
  case_bool_decide as Hfree; [done|].
  intros Hnone j Hj. destruct (decide (j = S i)) as [->|].
  - done.
  - eapply IH; [done|lia].
Qed.

(** The names tried are pairwise distinct, so more tries than destination
    columns always find a free one: the loop terminates. *)
Lemma rename_loop_terminates fuel i colname dst :
  length dst < fuel → is_Some (rename_loop fuel i colname dst).
Proof.
  intros Hfuel.
  destruct (rename_loop fuel i colname dst) eqn:Hloop; [by eexists|].
  exfalso.
  pose proof (rename_loop_None _ _ _ _ Hloop) as Htaken.
  assert (suffixed colname <$> seq (S i) fuel ⊆+ dst) as Hsub.
  { apply NoDup_submseteq.
    - apply (NoDup_fmap_2 _), NoDup_seq.
    - intros x (j & -> & Hj%elem_of_seq)%list_elem_of_fmap.
      apply Htaken. lia. }
  apply submseteq_length in Hsub.
  rewrite length_fmap, length_seq in Hsub. lia.
Qed.

(** More fuel does not change a result. *)
Lemma rename_loop_fuel_mono fuel fuel' i colname dst name :
  rename_loop fuel i colname dst = Some name → fuel ≤ fuel' →
  rename_loop fuel' i colname dst = Some name.
Proof.
  revert fuel' i. induction fuel as [|fuel IH]; intros fuel' i; simpl; [done|].
  intros Hloop Hle. destruct fuel' as [|fuel']; [lia|]. simpl.
  case_bool_decide; [done|]. apply IH; [done|lia].
Qed.

Lemma autorename_one_Some right_on dst colname :
  is_Some (autorename_one (enough_fuel dst) right_on dst colname).
Proof.
  unfold autorename_one. repeat case_bool_decide; [by eexists..|].
  apply rename_loop_terminates. unfold enough_fuel. lia.
Qed.

(** The pass over the source columns always completes, and the name at
    each position is the one chosen for the source column at that
    position. *)
Lemma autorename_loop_lookup fuel right_on dst src names :
  autorename_loop fuel right_on dst src = Some names →
  length names = length src ∧
  ∀ k colname, src !! k = Some colname →
    names !! k = autorename_one fuel right_on dst colname.
Proof.
  revert names. induction src as [|c src IH]; intros names; simpl.
  - intros [= <-]. split; [done|]. intros k colname. by rewrite lookup_nil.
  - destruct (autorename_one fuel right_on dst c) as [name|] eqn:Hone; [|done].
    destruct (autorename_loop fuel right_on dst src) as [rest|]; [|done].
    intros [= <-]. destruct (IH rest eq_refl) as [Hlen Hlook].
    split; [simpl; by f_equal|].
    intros [|k] colname; simpl; [intros [= <-]; by rewrite Hone|apply Hlook].
Qed.

Lemma autorename_column_names_Some right_on dst src :
  is_Some (autorename_column_names right_on dst src).
Proof.
  unfold autorename_column_names. induction src as [|c src IH]; simpl.
  - by eexists.
  - destruct (autorename_one_Some right_on dst c) as [name ->].
    destruct IH as [rest ->]. by eexists.
Qed.
End RenameLoop.

(** ** The reconciliation plan *)

Section Plan.
Import Reconcile.

Lemma elem_of_override_columns_names left_on dst src c :
  c ∈ Reconcile.override_columns_names left_on dst src ↔
  (c ∈ dst ∧ c ∈ src) ∧ c ≠ left_on.
Proof.
  unfold Reconcile.override_columns_names, override_set.
  rewrite elem_of_elements. set_solver.
Qed.

(** C1 (amended).  Under the rename policy, a source column other than the
    key whose name is also a destination column name receives its own name
    followed by [_i], where [i] is the smallest positive integer for which
    that name is not a destination column name; the pass always completes.
    Names given to earlier source columns play no part in the choice. *)
Theorem rename_first_suffix_free_in_destination
    (right_on : string) (dst src : list string) (k : nat) (colname : string) :
  src !! k = Some colname → colname ≠ right_on → colname ∈ dst →
  ∃ names i,
    Reconcile.autorename_column_names right_on dst src = Some names ∧
    1 ≤ i ∧
    names !! k = Some (suffixed colname i) ∧
    (suffixed colname i ∉ dst) ∧
    ∀ j, 1 ≤ j < i → suffixed colname j ∈ dst.
Proof.
  intros Hk Hkey Hin.
  destruct (autorename_column_names_Some right_on dst src) as [names Hnames].
  pose proof Hnames as [_ Hlook]%autorename_loop_lookup.
  specialize (Hlook _ _ Hk). unfold autorename_one in Hlook.
  rewrite bool_decide_eq_false_2 in Hlook by done.
  rewrite bool_decide_eq_false_2 in Hlook by (by intros Hout).
  destruct (rename_loop (enough_fuel dst) 0 colname dst) as [name|] eqn:Hloop.
  - apply rename_loop_Some in Hloop as (i & Hi & -> & Hout & Hbelow).
    exists names, i. split_and!; [done|lia|done|done|].
    intros j Hj. apply Hbelow. lia.
  - destruct (rename_loop_terminates (enough_fuel dst) 0 colname dst) as [? Hsome].
    + unfold enough_fuel. lia.
    + congruence.
Qed.

Lemma rename_first_suffix_free_in_destination_witness :
  ∃ names i,
    Reconcile.autorename_column_names "id" ["id"; "name"] ["id"; "name"] = Some names ∧
    1 ≤ i ∧
    names !! 1 = Some (suffixed "name" i) ∧
    (suffixed "name" i ∉ ["id"; "name"]) ∧
    ∀ j, 1 ≤ j < i → suffixed "name" j ∈ ["id"; "name"].
Proof.
  apply (rename_first_suffix_free_in_destination "id" ["id"; "name"] ["id"; "name"] 1 "name").
  - reflexivity.
  - discriminate.
  - apply (bool_decide_unpack _). vm_compute. exact I.
Defined.

(** C1 (as stated) fails: with destination columns [id, a] and source
    columns [id, a_1, a], the colliding column [a] is renamed to [a_1],
    the name already given to the source column before it. *)
Lemma rename_repeats_assigned_name :
  ¬ (∀ (right_on : string) (dst src names : list string) (k : nat)
       (colname name : string),
       Reconcile.autorename_column_names right_on dst src = Some names →
       src !! k = Some colname → colname ≠ right_on → colname ∈ dst →
       names !! k = Some name →
       name ∉ take k names).
Proof.
  intros Hclaim.
  apply (Hclaim "id" ["id"; "a"] ["id"; "a_1"; "a"] ["id"; "a_1"; "a_1"] 2 "a" "a_1").
  - vm_compute. reflexivity.
  - reflexivity.
  - discriminate.
  - apply (bool_decide_unpack _). vm_compute. exact I.
  - reflexivity.
  - apply (bool_decide_unpack _). vm_compute. exact I.
Qed.

(** The key column and the columns that do not collide keep their name. *)
Lemma rename_keeps_other_columns right_on dst src names k colname :
  Reconcile.autorename_column_names right_on dst src = Some names →
  src !! k = Some colname → colname = right_on ∨ colname ∉ dst →
  names !! k = Some colname.
Proof.
  intros [_ Hlook]%autorename_loop_lookup Hk Hkeep.
  rewrite (Hlook _ _ Hk). unfold autorename_one.
  destruct Hkeep as [->|Hout].
  - by rewrite bool_decide_eq_true_2.
  - case_bool_decide; [done|]. by rewrite bool_decide_eq_true_2.
Qed.
End Plan.

(** ** Access to the workflow and the matrix views *)

Section Access.
Context `{B : Backend}.
Implicit Types (w : World) (user : User) (pk : Z) (request : Request).

Lemma ops_get_object_locked w user pk :
  locked_for w user pk → refused_as_locked w user pk (MatrixOps.get_object user pk w).
Proof.
  intros (wf & Hwf & Hlock).
  unfold refused_as_locked, MatrixOps.get_object, call_workflow_get, call_is_locked,
    bind, emit, read. simpl. rewrite Hwf. simpl. rewrite Hlock. simpl.
  by rewrite <-app_assoc.
Qed.

Lemma merge_get_object_locked w user pk :
  locked_for w user pk → refused_as_locked w user pk (MatrixMerge.get_object user pk w).
Proof.
  intros (wf & Hwf & Hlock).
  unfold refused_as_locked, MatrixMerge.get_object, call_workflow_get, call_is_locked,
    bind, emit, read. simpl. rewrite Hwf. simpl. rewrite Hlock. simpl.
  by rewrite <-app_assoc.
Qed.

Lemma ops_get_object_open w user pk :
  open_for w user pk →
  ∃ wf, MatrixOps.get_object user pk w =
          (Ok wf, {| db := db w; log := log w ++ access_calls user pk |}).
Proof.
  intros (wf & Hwf & Hlock). exists wf.
  unfold MatrixOps.get_object, call_workflow_get, call_is_locked,
    bind, emit, read. simpl. rewrite Hwf. simpl. rewrite Hlock. simpl.
  by rewrite <-app_assoc.
Qed.

Lemma merge_get_object_open w user pk :
  open_for w user pk →
  ∃ wf, MatrixMerge.get_object user pk w =
          (Ok wf, {| db := db w; log := log w ++ access_calls user pk |}).
Proof.
  intros (wf & Hwf & Hlock). exists wf.
  unfold MatrixMerge.get_object, call_workflow_get, call_is_locked,
    bind, emit, read. simpl. rewrite Hwf. simpl. rewrite Hlock. simpl.
  by rewrite <-app_assoc.
Qed.

(** C8.  On a locked workflow, GET, PUT and DELETE of the matrix and both
    merge endpoints raise the locked-workflow error; the data base is left
    as it was and the only calls made are the workflow lookup and the lock
    check, so neither the table store nor the merge executor is reached. *)
Theorem locked_workflow_rejected w user pk request :
  locked_for w user pk →
  refused_as_locked w user pk (MatrixOps.get user request pk w) ∧
  refused_as_locked w user pk (MatrixOps.put user request pk w) ∧
  refused_as_locked w user pk (MatrixOps.delete user request pk w) ∧
  refused_as_locked w user pk (MatrixMerge.get user request pk w) ∧
  refused_as_locked w user pk (MatrixMerge.put user request pk w).
Proof.
  intros Hlocked.
  pose proof (ops_get_object_locked _ _ _ Hlocked) as Hops.
  pose proof (merge_get_object_locked _ _ _ Hlocked) as Hmerge.
  unfold refused_as_locked in *.
  split_and!.
  - unfold MatrixOps.get, bind. by rewrite Hops.
  - unfold MatrixOps.put, MatrixOps.override, bind. by rewrite Hops.
  - unfold MatrixOps.delete, bind. by rewrite Hops.
  - unfold MatrixMerge.get, bind. by rewrite Hmerge.
  - unfold MatrixMerge.put, bind. by rewrite Hmerge.
Qed.

(** Every POST begins by loading the stored table. *)
Lemma post_log_starts_with_load w user pk request :
  ∃ evs, log (MatrixOps.post user request pk w).2 = log w ++ LoadFrame pk :: evs.
Proof.
  unfold MatrixOps.post, MatrixOps.override, MatrixOps.get_object,
    call_load_from_db, call_workflow_get, call_is_locked,
    call_store_dataframe_in_db, bind, emit, read, write, ret, raise, raise_if.
  simpl.
  destruct (load_from_db (db w) pk) as [d|]; simpl; [by exists []|].
  destruct (Workflow_objects_get (db w) pk (lookup_filter user)) as [wf|]; simpl;
    [|eexists; by rewrite <-?app_assoc].
  destruct (is_locked (db w) wf); simpl; [eexists; by rewrite <-?app_assoc|].
  destruct (DataFrameSerializer request) as [data|]; simpl;
    [|eexists; by rewrite <-?app_assoc].
  destruct (pd_DataFrame data ≫= detect_datetime_columns) as [df|]; simpl;
    eexists; by rewrite <-?app_assoc.
Qed.

(** With a table stored, POST stops right after the load. *)
Lemma post_with_stored_table w user pk request :
  is_Some (load_from_db (db w) pk) →
  MatrixOps.post user request pk w =
    (Raise (APIException "Post request requires workflow without a matrix"),
     {| db := db w; log := log w ++ [LoadFrame pk] |}).
Proof.
  intros [d Hd].
  unfold MatrixOps.post, call_load_from_db, bind, emit, read. simpl.
  by rewrite Hd.
Qed.

(** C9.  POST loads the stored table first: whatever the ownership and
    lock state of the workflow, the log of a POST starts with the load,
    and when a table is stored the request is refused for that reason
    with no lookup or lock check made at all. *)
Theorem post_checks_table_before_permissions w user pk request :
  (∃ evs, log (MatrixOps.post user request pk w).2 = log w ++ LoadFrame pk :: evs) ∧
  (is_Some (load_from_db (db w) pk) →
   MatrixOps.post user request pk w =
     (Raise (APIException "Post request requires workflow without a matrix"),
      {| db := db w; log := log w ++ [LoadFrame pk] |})).
Proof.
  split; [apply post_log_starts_with_load|apply post_with_stored_table].
Qed.

(** What PUT of the matrix does on a workflow that is open to the user. *)
Lemma ops_put_open w user pk request :
  open_for w user pk →
  MatrixOps.put user request pk w =
    match DataFrameSerializer request with
    | None =>
        (Ok {| body := ErrorsBody; status := HTTP_400_BAD_REQUEST |},
         {| db := db w; log := log w ++ access_calls user pk |})
    | Some data =>
        match pd_DataFrame data ≫= detect_datetime_columns with
        | None => (Raise Http404, {| db := db w; log := log w ++ access_calls user pk |})
        | Some df =>
            (Ok {| body := WireBody data; status := HTTP_201_CREATED |},
             {| db := store_dataframe_in_db df pk (db w);
                log := log w ++ access_calls user pk ++ [StoreFrame pk df] |})
        end
    end.
Proof.
  intros [wf Hopen]%ops_get_object_open.
  unfold MatrixOps.put, MatrixOps.override, bind. rewrite Hopen.
  destruct (DataFrameSerializer request) as [data|]; [|done].
  destruct (pd_DataFrame data ≫= detect_datetime_columns) as [df|]; [|done].
  unfold call_store_dataframe_in_db, bind, emit, write, ret. simpl.
  by rewrite <-app_assoc.
Qed.

(** C6.  When a table is stored for the workflow, POST is refused and
    leaves the data base as it was, whoever asks and whatever the request
    carries.  PUT in the same state does not look at the stored table: for
    a user to whom the workflow is open and a request the serializer and
    the frame construction accept, it answers 201 and the data base is the
    result of storing the new frame under the workflow. *)
Theorem post_refused_put_replaces w user pk request data df :
  is_Some (load_from_db (db w) pk) →
  open_for w user pk →
  DataFrameSerializer request = Some data →
  pd_DataFrame data ≫= detect_datetime_columns = Some df →
  (MatrixOps.post user request pk w).1 =
    Raise (APIException "Post request requires workflow without a matrix") ∧
  db (MatrixOps.post user request pk w).2 = db w ∧
  (MatrixOps.put user request pk w).1 =
    Ok {| body := WireBody data; status := HTTP_201_CREATED |} ∧
  db (MatrixOps.put user request pk w).2 = store_dataframe_in_db df pk (db w) ∧
  StoreFrame pk df ∈ log (MatrixOps.put user request pk w).2.
Proof.
  intros Hstored Hopen Hdata Hdf.
  rewrite (post_with_stored_table _ _ _ _ Hstored).
  rewrite (ops_put_open _ _ _ _ Hopen), Hdata, Hdf. simpl.
  split_and!; [done..|]. set_solver.
Qed.

End Access.

(** ** The merge view *)

Section MergePut.
Context `{B : Backend}.
Implicit Types (w : World) (user : User) (pk : Z) (request : Request).

Lemma find_column_Some name cols :
  is_Some (find_column name cols) ↔ name ∈ cols.*1.
Proof.
  induction cols as [|[n c] cols IH]; simpl.
  - split; [by intros [? ?]|by intros ?%elem_of_nil].
  - case_bool_decide as Hn.
    + subst. split; [intros _; apply list_elem_of_here|by eexists].
    + rewrite IH. split; [apply list_elem_of_further|].
      intros [?|?]%elem_of_cons; [congruence|done].
Qed.

Lemma no_merge_call_cons (ev : Event) (evs : list Event) :
  (∀ pk info, ev ≠ PerformMerge pk info) →
  (∀ pk info, PerformMerge pk info ∉ evs) →
  ∀ pk info, PerformMerge pk info ∉ ev :: evs.
Proof. intros Hev Hevs pk info [?|?]%elem_of_cons; [by eapply Hev|by eapply Hevs]. Qed.

Ltac no_merge_call :=
  simpl; repeat (apply no_merge_call_cons; [discriminate|]);
  intros ? ?; apply not_elem_of_nil.

Ltac turned_down :=
  right; simpl; split_and!;
  [done | done | eexists; split; [by rewrite <-?app_assoc | no_merge_call]].

Lemma how_allowed (x : string) (allowed : list string) :
  bool_decide (x = EmptyString) || bool_decide (x ∉ allowed) = false → x ∈ allowed.
Proof.
  intros [_ Hin%bool_decide_eq_false]%orb_false_elim. by apply dec_stable.
Qed.

Lemma empty_not_join_type : EmptyString ∉ ["left"; "right"; "outer"; "inner"].
Proof. apply (bool_decide_unpack _). vm_compute. exact I. Qed.

Lemma empty_not_policy : EmptyString ∉ ["override"; "rename"].
Proof. apply (bool_decide_unpack _). vm_compute. exact I. Qed.

Lemma allowed_how (x : string) (allowed : list string) :
  x ∈ allowed → EmptyString ∉ allowed →
  bool_decide (x = EmptyString) || bool_decide (x ∉ allowed) = false.
Proof.
  intros Hin Hempty. apply orb_false_intro; apply bool_decide_eq_false.
  - intros ->. by apply Hempty.
  - by intros Hout.
Qed.

(** Either every check passes, or the request is turned down with the data
    base untouched and the merge executor not called. *)
Lemma merge_put_outcome w user pk request :
  (∃ data d src dst_key src_key,
      Validated w user pk request data d src dst_key src_key) ∨
  (db (MatrixMerge.put user request pk w).2 = db w ∧
   rejected (MatrixMerge.put user request pk w).1 ∧
   ∃ evs, log (MatrixMerge.put user request pk w).2 = log w ++ evs ∧
          ∀ pk' info, PerformMerge pk' info ∉ evs).
Proof.
  unfold MatrixMerge.put, MatrixMerge.get_object, call_workflow_get,
    call_is_locked, call_load_from_db, call_is_unique_column,
    bind, emit, read, ret, raise, raise_if. simpl.
  destruct (Workflow_objects_get (db w) pk (lookup_filter user)) as [wf|] eqn:Hwf;
    simpl; [|turned_down].
  destruct (is_locked (db w) wf) eqn:Hlock; simpl; [turned_down|].
  destruct (DataFrameMergeSerializer request) as [data|] eqn:Hdata;
    simpl; [|turned_down].
  destruct (pd_DataFrame (src_df data)) as [src|] eqn:Hsrc; simpl; [|turned_down].
  destruct (bool_decide (how data = EmptyString) || _) eqn:Hhow; simpl; [turned_down|].
  destruct (load_from_db (db w) pk) as [d|] eqn:Hdst; simpl; [|turned_down].
  destruct (find_column (left_on data) (frame_columns d)) as [dst_key|] eqn:Hleft;
    simpl; [|turned_down].
  destruct (is_unique_column dst_key) eqn:Hlu; simpl; [|turned_down].
  destruct (bool_decide (right_on data ∉ columns src)) eqn:Hin; simpl; [turned_down|].
  destruct (find_column (right_on data) (frame_columns src)) as [src_key|] eqn:Hright;
    simpl; [|turned_down].
  destruct (is_unique_column src_key) eqn:Hru; simpl; [|turned_down].
  destruct (bool_decide (dup_column data = EmptyString) || _) eqn:Hdup; simpl; [turned_down|].
  left. exists data, d, src, dst_key, src_key.
  constructor; try done.
  - by exists wf.
  - by apply how_allowed.
  - by apply how_allowed.
Qed.

(** The reconciliation step always produces a plan, and touches neither
    the data base nor the log. *)
Lemma reconcile_runs dup_column left_on right_on d src :
  ∃ plan, ∀ w, MatrixMerge.reconcile dup_column left_on right_on (Some d) src w
               = (Ok plan, w).
Proof.
  unfold MatrixMerge.reconcile, columns_of, bind, ret.
  case_bool_decide; [by eexists|].
  destruct (autorename_column_names_Some right_on (columns d) (columns src))
    as [names ->].
  by eexists.
Qed.

(** A request that passes every check reaches the merge executor, and the
    answer is made from what the executor returns. *)
Lemma merge_put_validated w user pk request data d src dst_key src_key :
  Validated w user pk request data d src dst_key src_key →
  ∃ plan,
    (∀ w', MatrixMerge.reconcile (dup_column data) (left_on data) (right_on data)
             (Some d) src w' = (Ok plan, w')) ∧
    let info := MatrixMerge.build_merge_info (how data) (left_on data)
                  (right_on data) src plan in
    let done := perform_dataframe_upload_merge pk (Some d) src info (db w) in
    MatrixMerge.put user request pk w =
      (merge_answer data done.1,
       {| db := done.2;
          log := log w ++ merge_calls user pk dst_key src_key info |}).
Proof.
  intros [Hopen Hdst Hdata Hsrc Hhow Hleft Hlu Hright Hru Hdup].
  destruct (reconcile_runs (dup_column data) (left_on data) (right_on data) d src)
    as [plan Hplan].
  exists plan. split; [done|]. simpl.
  apply merge_get_object_open in Hopen as [wf Hopen].
  unfold MatrixMerge.put. unfold bind at 1. rewrite Hopen.
  unfold call_load_from_db, call_is_unique_column, call_perform_merge, getitem,
    bind, emit, read, ret, raise, raise_if. simpl.
  rewrite Hdst, Hdata, Hsrc. simpl.
  rewrite (allowed_how _ _ Hhow empty_not_join_type). simpl.
  rewrite Hleft, Hlu. simpl.
  rewrite bool_decide_eq_false_2; simpl.
  2: { intros Hout. apply Hout, find_column_Some. by rewrite Hright. }
  rewrite Hright, Hru. simpl.
  rewrite (allowed_how _ _ Hdup empty_not_policy). simpl.
  rewrite Hplan.
  destruct (perform_dataframe_upload_merge _ _ _ _ _) as [[[msg|]|] d'];
    simpl; unfold merge_calls, access_calls; rewrite <-?app_assoc; simpl; try done.
  by destruct (bool_decide (msg = EmptyString)).
Qed.

(** The view always answers: the suffix search of the rename policy
    cannot run on for ever. *)
Lemma merge_put_answers w user pk request :
  (MatrixMerge.put user request pk w).1 ≠ Diverge.
Proof.
  destruct (merge_put_outcome w user pk request)
    as [(data & d & src & dst_key & src_key & Hvalid)|(_ & Hrej & _)].
  - apply merge_put_validated in Hvalid as (plan & _ & Hput). simpl in Hput.
    rewrite Hput. simpl. unfold merge_answer.
    by repeat case_match.
  - intros Hdiv. by rewrite Hdiv in Hrej.
Qed.

(** Without the left key among the destination columns the lookup
    [dst_df[left_on]] raises pandas' [KeyError]; no uniqueness check is
    made. *)
Lemma merge_put_missing_left_key w user pk request data d src :
  open_for w user pk →
  load_from_db (db w) pk = Some d →
  DataFrameMergeSerializer request = Some data →
  pd_DataFrame (src_df data) = Some src →
  how data ∈ ["left"; "right"; "outer"; "inner"] →
  left_on data ∉ columns d →
  MatrixMerge.put user request pk w =
    (Raise (KeyError (left_on data)),
     {| db := db w; log := log w ++ access_calls user pk ++ [LoadFrame pk] |}).
Proof.
  intros [wf Hopen]%merge_get_object_open Hdst Hdata Hsrc Hhow Hleft.
  unfold MatrixMerge.put. unfold bind at 1. rewrite Hopen.
  unfold call_load_from_db, getitem, bind, emit, read, ret, raise, raise_if. simpl.
  rewrite Hdst, Hdata, Hsrc. simpl.
  rewrite (allowed_how _ _ Hhow empty_not_join_type). simpl.
  destruct (find_column (left_on data) (frame_columns d)) as [c|] eqn:Hfind.
  - exfalso. apply Hleft, find_column_Some. by rewrite Hfind.
  - unfold access_calls. by rewrite <-?app_assoc.
Qed.

(** C7.  A merge request that fails a check -- the serializer, the frame
    construction, the join type, a key column that is missing or not
    unique on either side, or the duplicate-column policy -- is turned
    down with the data base exactly as it was, and the log shows no call
    of the merge executor. *)
Theorem failed_check_leaves_table_untouched w user pk request :
  CheckFails w pk request →
  rejected (MatrixMerge.put user request pk w).1 ∧
  db (MatrixMerge.put user request pk w).2 = db w ∧
  ∃ evs, log (MatrixMerge.put user request pk w).2 = log w ++ evs ∧
         ∀ pk' info, PerformMerge pk' info ∉ evs.
Proof.
  intros Hfails.
  destruct (merge_put_outcome w user pk request)
    as [(data & d & src & dst_key & src_key & Hvalid)|(Hdb & Hrej & Hlog)];
    [exfalso|done].
  destruct Hvalid as [_ Hdst Hdata Hsrc Hhow Hleft Hlu Hright Hru Hdup].
  destruct Hfails as [Hnone|data' ? Hnone|data' ? Hbad|data' d' ? Hdst' Hbad
    |data' d' c ? Hdst' Hcol Hbad|data' src' ? Hsrc' Hbad
    |data' src' c ? Hsrc' Hcol Hbad|data' ? Hbad];
    simplify_eq;
    first [ done
          | congruence
          | apply Hbad, find_column_Some; by rewrite Hleft
          | apply Hbad, find_column_Some; by rewrite Hright ].
Qed.

(** The policy of a request that passed the last check is one of the two
    words. *)
Lemma policy_cases (x : string) :
  x ∈ ["override"; "rename"] → x = "override" ∨ x = "rename".
Proof.
  intros [->|Hin]%elem_of_cons; [by left|].
  apply elem_of_cons in Hin as [->|Hin]; [by right|by apply elem_of_nil in Hin].
Qed.

(** The plan that the reconciliation step returns, spelled out. *)
Lemma reconcile_plan data d src plan w :
  dup_column data ∈ ["override"; "rename"] →
  MatrixMerge.reconcile (dup_column data) (left_on data) (right_on data)
    (Some d) src w = (Ok plan, w) →
  planned_info data d src
    (MatrixMerge.build_merge_info (how data) (left_on data) (right_on data) src plan).
Proof.
  intros Hdup.
  unfold MatrixMerge.reconcile, columns_of, bind, ret, planned_info,
    MatrixMerge.build_merge_info.
  case_bool_decide as Hpolicy.
  - intros [= <-]. by left.
  - destruct (Reconcile.autorename_column_names _ _ _) as [names|] eqn:Hnames; [|done].
    intros [= <-]. right.
    destruct (policy_cases _ Hdup) as [?|Hrename]; [done|].
    split; [done|]. by exists names.
Qed.

(** C5 (amended).  A merge request that passes every check is handed,
    with the destination, the source and the plan, to the merge executor,
    which alone writes to the data base: the one call of the executor gets
    the stored table, the source frame and the [merge_info] made of the
    request's parameters, the source columns and the plan of lines 184-212.
    When the executor returns nothing (or an empty message) the answer is
    status 201 with the serialized request -- the source table and the four
    parameters as received, not the merged table; when it returns a message
    or raises, an [APIException] is raised. *)
Theorem merge_answers_with_request w user pk request data d src dst_key src_key :
  Validated w user pk request data d src dst_key src_key →
  ∃ info,
    planned_info data d src info ∧
    let done := perform_dataframe_upload_merge pk (Some d) src info (db w) in
    log (MatrixMerge.put user request pk w).2
      = log w ++ merge_calls user pk dst_key src_key info ∧
    db (MatrixMerge.put user request pk w).2 = done.2 ∧
    (MatrixMerge.put user request pk w).1 = merge_answer data done.1 ∧
    (done.1 = Some None →
     (MatrixMerge.put user request pk w).1
       = Ok {| body := MergeBody data; status := HTTP_201_CREATED |}).
Proof.
  intros Hvalid.
  pose proof (v_dup _ _ _ _ _ _ _ _ _ Hvalid) as Hdup.
  apply merge_put_validated in Hvalid as (plan & Hplan & Hput). simpl in Hput.
  eexists. split; [exact (reconcile_plan _ _ _ _ w Hdup (Hplan w))|].
  simpl. rewrite Hput. simpl. split_and!; [done..|].
  by intros ->.
Qed.
End MergePut.

(** ** The plan handed to the merge executor *)

Section PlanOfRequest.
Context `{B : Backend}.

(** C3 (amended).  Whatever the policy, the plan keeps the source key
    under its own name in the rename list and never lists [left_on] among
    the columns to drop.  [right_on] is listed for dropping exactly when
    the policy is override and [right_on] is a destination column other
    than [left_on]: the destination's column of that name then gives way
    to the source's key column. *)
Theorem plan_keeps_join_keys
    (dup_column left_on right_on : string) (d src : DataFrame) (w : World) :
  ∃ drop renamed,
    MatrixMerge.reconcile dup_column left_on right_on (Some d) src w
      = (Ok (drop, renamed), w) ∧
    (∀ names k, renamed = Some names →
                columns src !! k = Some right_on → names !! k = Some right_on) ∧
    (left_on ∉ drop) ∧
    (right_on ∈ drop ↔
       dup_column = "override" ∧ right_on ≠ left_on ∧
       right_on ∈ columns d ∧ right_on ∈ columns src).
Proof.
  unfold MatrixMerge.reconcile, columns_of, bind, ret.
  case_bool_decide as Hpolicy.
  - eexists _, None. split_and!; [done|done|..].
    + rewrite elem_of_override_columns_names. tauto.
    + rewrite elem_of_override_columns_names. tauto.
  - destruct (autorename_column_names_Some right_on (columns d) (columns src))
      as [names Hnames].
    rewrite Hnames. exists [], (Some names). split_and!; [done|..].
    + intros ? k [= <-] Hk.
      eapply rename_keeps_other_columns; [done|done|by left].
    + apply not_elem_of_nil.
    + split; [by intros ?%elem_of_nil|tauto].
Qed.

(** C4.  Under the override policy the columns to drop are, without
    repetition, exactly the names that are both destination and source
    columns, [left_on] excepted; no rename list is built and the source
    columns go to the executor under their own names.  For destination
    [id, name, age], source [id, name] and key [id] the list is [name]. *)
Theorem override_drops_shared_columns
    (how left_on right_on : string) (d src : DataFrame) (w : World) :
  ∃ drop,
    MatrixMerge.reconcile "override" left_on right_on (Some d) src w
      = (Ok (drop, None), w) ∧
    NoDup drop ∧
    (∀ c, c ∈ drop ↔ (c ∈ columns d ∧ c ∈ columns src) ∧ c ≠ left_on) ∧
    (let info := MatrixMerge.build_merge_info how left_on right_on src (drop, None) in
     override_columns_names info = drop ∧
     autorename_column_names info = None ∧
     rename_column_names info = columns src) ∧
    Reconcile.override_columns_names "id" ["id"; "name"; "age"] ["id"; "name"]
      = ["name"].
Proof.
  eexists. split_and!.
  - reflexivity.
  - apply NoDup_elements.
  - intros c. apply elem_of_override_columns_names.
  - by simpl.
  - vm_compute. reflexivity.
Qed.
End PlanOfRequest.

(** ** Restricted file uploads *)

Section RestrictedFile.
Import Forms.
Variable version : PyVersion.
Variable filesizeformat : PyVal → string.

(** A value without [content_type] comes back as it is. *)
Lemma clean_without_content_type self data :
  content_type data = None → clean version filesizeformat self data = Ok data.
Proof. unfold clean. by intros ->. Qed.

(** With an integer limit and a list of allowed types, the validation
    error is raised exactly for a type that is not allowed, or an allowed
    type with a size above the limit. *)
Lemma clean_with_integer_limit allowed limit data ct :
  content_type data = Some ct →
  is_validation_error
    (clean version filesizeformat
       {| content_types := Some allowed; max_upload_size := PyInt limit |} data) = true
  ↔ ct ∉ allowed ∨ (ct ∈ allowed ∧ ∃ sz, size data = Some sz ∧ (limit < sz)%Z).
Proof.
  intros Hct. unfold clean. rewrite Hct. simpl.
  case_bool_decide as Hin.
  - destruct (size data) as [sz|]; simpl.
    + destruct (Z.ltb_spec limit sz); simpl.
      * split; [|done]. intros _. right. split; [done|]. by exists sz.
      * split; [done|]. intros [?|[_ (sz' & [= <-] & ?)]]; [done|lia].
    + split; [done|]. by intros [?|[_ (sz' & ? & ?)]].
  - simpl. split; [|done]. intros _. by left.
Qed.

(** C10.  A field built without [max_upload_size] holds the preference as
    a string, [str(MAX_UPLOAD_SIZE)].  With preference 200 and allowed type
    [text/csv], an upload of that type and of 1000000 bytes raises no
    validation error: [int > str] is false under Python 2 and a
    [TypeError] under Python 3. *)
Theorem default_upload_limit_not_enforced :
  let field := init 200 (Some ["text/csv"]) PyNone in
  let data := {| content_type := Some "text/csv"; size := Some 1000000%Z |} in
  max_upload_size field = PyStr "200" ∧
  is_validation_error (clean version filesizeformat field data) = false ∧
  clean version filesizeformat field data =
    match version with Python2 => Ok data | Python3 => Raise TypeError end.
Proof. destruct version; vm_compute; done. Qed.
End RestrictedFile.

(** ** The handlers on concrete requests *)

Section Examples.
Import Demo.

(** C2.  Workflow 1 holds a table with columns [id, name, age]; a merge
    request with [left_on = zz] is not answered with an [APIException]
    about a missing column, as a missing [right_on] is: the [KeyError] of
    the lookup [dst_df[left_on]] escapes the view.  The lookup comes
    before the uniqueness check, which is not reached. *)
Theorem missing_left_key_escapes_as_KeyError :
  MatrixMerge.put alice (merge_request "left" "zz" "id" "rename") 1 w0
    = (Raise (KeyError "zz"),
       {| db := db0;
          log := [WorkflowLookup 1 (Some alice); LockCheck 1; LoadFrame 1] |}) ∧
  MatrixMerge.put alice (merge_request "left" "id" "zz" "rename") 1 w0
    = (Raise (APIException "column zz not found in data frame"),
       {| db := db0;
          log := [WorkflowLookup 1 (Some alice); LockCheck 1; LoadFrame 1;
                  UniqueCheck [SNum 1; SNum 2; SNum 3]] |}).
Proof. split; vm_compute; reflexivity. Qed.

(** C3 (as stated) fails: destination [id, email] keyed by [id], source
    [email, name] keyed by [email], override policy.  The request passes
    every check, and the plan handed to the merge executor lists the
    source key [email] among the columns to drop. *)
Lemma override_plan_drops_right_on :
  ∃ info,
    last (log (MatrixMerge.put alice email_merge 4 w1).2)
      = Some (PerformMerge 4 info) ∧
    src_selected_key info = "email" ∧
    src_selected_key info ∈ override_columns_names info.
Proof.
  eexists. split_and!.
  - vm_compute. reflexivity.
  - reflexivity.
  - apply (bool_decide_unpack _). vm_compute. exact I.
Qed.

Lemma demo_validated :
  Validated w0 alice 1 (merge_request "left" "id" "id" "rename")
    (merge_data "left" "id" "id" "rename") people {| frame_columns := incoming |}
    [SNum 1; SNum 2; SNum 3] [SNum 2; SNum 4].
Proof.
  constructor.
  - exists 1%Z. split; vm_compute; reflexivity.
  - vm_compute. reflexivity.
  - reflexivity.
  - vm_compute. reflexivity.
  - apply (bool_decide_unpack _). vm_compute. exact I.
  - vm_compute. reflexivity.
  - vm_compute. reflexivity.
  - vm_compute. reflexivity.
  - vm_compute. reflexivity.
  - apply (bool_decide_unpack _). vm_compute. exact I.
Defined.

Lemma merge_answers_with_request_witness :
  ∃ info,
    planned_info (merge_data "left" "id" "id" "rename") people
      {| frame_columns := incoming |} info ∧
    let done := perform_dataframe_upload_merge 1 (Some people)
                  {| frame_columns := incoming |} info (db w0) in
    log (MatrixMerge.put alice (merge_request "left" "id" "id" "rename") 1 w0).2
      = log w0 ++ merge_calls alice 1 [SNum 1; SNum 2; SNum 3] [SNum 2; SNum 4] info ∧
    db (MatrixMerge.put alice (merge_request "left" "id" "id" "rename") 1 w0).2
      = done.2 ∧
    (MatrixMerge.put alice (merge_request "left" "id" "id" "rename") 1 w0).1
      = merge_answer (merge_data "left" "id" "id" "rename") done.1 ∧
    (done.1 = Some None →
     (MatrixMerge.put alice (merge_request "left" "id" "id" "rename") 1 w0).1
       = Ok {| body := MergeBody (merge_data "left" "id" "id" "rename");
               status := HTTP_201_CREATED |}).
Proof.
  apply (merge_answers_with_request w0 alice 1 (merge_request "left" "id" "id" "rename")
           (merge_data "left" "id" "id" "rename") people {| frame_columns := incoming |}
           [SNum 1; SNum 2; SNum 3] [SNum 2; SNum 4]).
  exact demo_validated.
Defined.

(** C5 (as stated) fails: the merge of [incoming] into workflow 1 goes
    through, and the answer carries the request as it came in; it is no
    table, and in particular not the table now stored for the workflow. *)
Lemma merge_answer_is_not_merged_table :
  ∃ resp,
    (MatrixMerge.put alice (merge_request "left" "id" "id" "rename") 1 w0).1 = Ok resp ∧
    status resp = HTTP_201_CREATED ∧
    body resp = MergeBody (merge_data "left" "id" "id" "rename") ∧
    ∀ merged, body resp ≠ FrameBody merged.
Proof.
  eexists. split_and!.
  - vm_compute. reflexivity.
  - reflexivity.
  - reflexivity.
  - discriminate.
Qed.

Lemma post_refused_put_replaces_witness :
  (MatrixOps.post alice (FramePayload incoming) 1 w0).1 =
    Raise (APIException "Post request requires workflow without a matrix") ∧
  db (MatrixOps.post alice (FramePayload incoming) 1 w0).2 = db w0 ∧
  (MatrixOps.put alice (FramePayload incoming) 1 w0).1 =
    Ok {| body := WireBody incoming; status := HTTP_201_CREATED |} ∧
  db (MatrixOps.put alice (FramePayload incoming) 1 w0).2
    = store_dataframe_in_db {| frame_columns := incoming |} 1 (db w0) ∧
  StoreFrame 1 {| frame_columns := incoming |}
    ∈ log (MatrixOps.put alice (FramePayload incoming) 1 w0).2.
Proof.
  apply (post_refused_put_replaces w0 alice 1 (FramePayload incoming) incoming
           {| frame_columns := incoming |}).
  - exists people. vm_compute. reflexivity.
  - exists 1%Z. split; vm_compute; reflexivity.
  - reflexivity.
  - vm_compute. reflexivity.
Defined.

Lemma failed_check_leaves_table_untouched_witness :
  rejected (MatrixMerge.put alice (merge_request "sideways" "id" "id" "rename") 1 w0).1 ∧
  db (MatrixMerge.put alice (merge_request "sideways" "id" "id" "rename") 1 w0).2 = db w0 ∧
  ∃ evs,
    log (MatrixMerge.put alice (merge_request "sideways" "id" "id" "rename") 1 w0).2
      = log w0 ++ evs ∧
    ∀ pk' info, PerformMerge pk' info ∉ evs.
Proof.
  apply (failed_check_leaves_table_untouched w0 alice 1
           (merge_request "sideways" "id" "id" "rename")).
  apply (how_fails _ _ _ (merge_data "sideways" "id" "id" "rename")).
  - reflexivity.
  - apply (bool_decide_unpack _). vm_compute. exact I.
Defined.

Lemma locked_workflow_rejected_witness :
  locked_for w0 alice 2 ∧
  refused_as_locked w0 alice 2 (MatrixOps.get alice (FramePayload incoming) 2 w0) ∧
  refused_as_locked w0 alice 2 (MatrixOps.put alice (FramePayload incoming) 2 w0) ∧
  refused_as_locked w0 alice 2 (MatrixOps.delete alice (FramePayload incoming) 2 w0) ∧
  refused_as_locked w0 alice 2 (MatrixMerge.get alice (FramePayload incoming) 2 w0) ∧
  refused_as_locked w0 alice 2 (MatrixMerge.put alice (FramePayload incoming) 2 w0).
Proof.
  assert (locked_for w0 alice 2) as Hlocked.
  { exists 2%Z. split; vm_compute; reflexivity. }
  split; [exact Hlocked|].
  apply (locked_workflow_rejected w0 alice 2 (FramePayload incoming) Hlocked).
Defined.

(** Workflow 2 has a table, is locked, and does not belong to bob: his
    POST is refused for the table, not for the lock or the ownership. *)
Lemma post_checks_table_before_permissions_witness :
  is_Some (load_from_db (db w0) 2) ∧
  MatrixOps.post bob (FramePayload incoming) 2 w0 =
    (Raise (APIException "Post request requires workflow without a matrix"),
     {| db := db w0; log := log w0 ++ [LoadFrame 2] |}).
Proof.
  assert (is_Some (load_from_db (db w0) 2)) as Hstored.
  { exists people. vm_compute. reflexivity. }
  split; [exact Hstored|].
  apply (post_checks_table_before_permissions w0 bob 2 (FramePayload incoming)).
  exact Hstored.
Defined.
End Examples.

(** * Further properties of the code *)

(** ** More on the rename and override plans *)

Section MoreReconcile.
Import Reconcile.

Lemma string_length_app (s1 s2 : string) :
  String.length (s1 +:+ s2) = String.length s1 + String.length s2.
Proof. induction s1 as [|a s1 IH]; simpl; [done|]. by rewrite <-IH. Qed.

Lemma suffixed_neq_colname colname i : suffixed colname i ≠ colname.
Proof.
  intros Heq. apply (f_equal String.length) in Heq.
  unfold suffixed in Heq. rewrite !string_length_app in Heq. simpl in Heq. lia.
Qed.

(** X1.  Under the rename policy no source column other than the key ends
    up under a name that is a destination column name: a column that did not
    collide keeps a name that is free, a column that collided gets a
    suffixed name that is free. *)
Theorem renamed_column_not_in_destination
    (right_on : string) (dst src names : list string) (k : nat)
    (colname name : string) :
  Reconcile.autorename_column_names right_on dst src = Some names →
  src !! k = Some colname → colname ≠ right_on →
  names !! k = Some name →
  name ∉ dst.
Proof.
  intros [_ Hlook]%autorename_loop_lookup Hk Hkey Hname.
  rewrite (Hlook _ _ Hk) in Hname. unfold autorename_one in Hname.
  rewrite bool_decide_eq_false_2 in Hname by done.
  case_bool_decide as Hfree.
  - by injection Hname as <-.
  - by apply rename_loop_Some in Hname as (i & _ & -> & Hout & _).
Qed.

Lemma renamed_column_not_in_destination_witness :
  Reconcile.autorename_column_names "id" ["id"; "name"; "name_1"] ["id"; "name"; "zip"]
    = Some ["id"; "name_2"; "zip"] ∧
  "name_2" ∉ ["id"; "name"; "name_1"].
Proof.
  assert (Reconcile.autorename_column_names "id" ["id"; "name"; "name_1"]
            ["id"; "name"; "zip"] = Some ["id"; "name_2"; "zip"]) as Hnames.
  { vm_compute. reflexivity. }
  split; [exact Hnames|].
  apply (renamed_column_not_in_destination "id" ["id"; "name"; "name_1"]
           ["id"; "name"; "zip"] ["id"; "name_2"; "zip"] 1 "name" "name_2").
  - exact Hnames.
  - reflexivity.
  - discriminate.
  - reflexivity.
Defined.

Lemma autorename_loop_identity fuel right_on dst src :
  (∀ c, c ∈ src → c = right_on ∨ c ∉ dst) →
  autorename_loop fuel right_on dst src = Some src.
Proof.
  induction src as [|c src IH]; intros Hfree; simpl; [done|].
  rewrite IH by (intros c' Hc'; apply Hfree; by right).
  unfold autorename_one.
  destruct (Hfree c) as [->|Hout]; [by left|..].
  - by rewrite bool_decide_eq_true_2.
  - case_bool_decide; [done|]. by rewrite bool_decide_eq_true_2.
Qed.

(** X2.  When no source column other than the key is also a destination
    column, the rename policy changes nothing: the rename list is the list
    of source columns itself. *)
Theorem rename_without_collision_is_identity
    (right_on : string) (dst src : list string) :
  (∀ c, c ∈ src → c = right_on ∨ c ∉ dst) →
  Reconcile.autorename_column_names right_on dst src = Some src.
Proof. apply autorename_loop_identity. Qed.

Lemma rename_without_collision_is_identity_witness :
  Reconcile.autorename_column_names "id" ["id"; "name"] ["id"; "zip"]
    = Some ["id"; "zip"].
Proof.
  apply (rename_without_collision_is_identity "id" ["id"; "name"] ["id"; "zip"]).
  intros c Hc.
  apply elem_of_cons in Hc as [->|Hc]; [by left|].
  apply elem_of_cons in Hc as [->|Hc]; [|by apply elem_of_nil in Hc].
  right. apply (bool_decide_unpack _). vm_compute. exact I.
Defined.

(** X3.  The rename list runs parallel to the source columns: it has their
    number, and the name at each position is the source column at that
    position, either as it is or followed by an underscore and a positive
    decimal number.  Only a column that is not the key and is also a
    destination column is changed. *)
Theorem rename_list_parallel_to_source
    (right_on : string) (dst src names : list string) :
  Reconcile.autorename_column_names right_on dst src = Some names →
  length names = length src ∧
  ∀ k colname name,
    src !! k = Some colname → names !! k = Some name →
    name = colname ∨
    (colname ≠ right_on ∧ colname ∈ dst ∧ ∃ i, 1 ≤ i ∧ name = suffixed colname i).
Proof.
  intros [Hlen Hlook]%autorename_loop_lookup. split; [done|].
  intros k colname name Hk Hname.
  rewrite (Hlook _ _ Hk) in Hname. unfold autorename_one in Hname.
  case_bool_decide as Hkey; [left; congruence|].
  case_bool_decide as Hfree; [left; congruence|].
  right. apply rename_loop_Some in Hname as (i & Hi & -> & _).
  split_and!; [done|done|]. exists i. split; [lia|done].
Qed.

Lemma rename_list_parallel_to_source_witness :
  length ["id"; "name_1"] = length ["id"; "name"] ∧
  ∀ k colname name,
    ["id"; "name"] !! k = Some colname → ["id"; "name_1"] !! k = Some name →
    name = colname ∨
    (colname ≠ "id" ∧ colname ∈ ["id"; "name"] ∧ ∃ i, 1 ≤ i ∧ name = suffixed colname i).
Proof.
  apply (rename_list_parallel_to_source "id" ["id"; "name"] ["id"; "name"] ["id"; "name_1"]).
  vm_compute. reflexivity.
Defined.

(** X4.  The suffix given to a colliding column is at most the number of
    destination columns: the search of lines 206-211 stops after at most
    that many rounds. *)
Theorem rename_suffix_bounded_by_destination
    (right_on : string) (dst src : list string) (k : nat) (colname : string) :
  src !! k = Some colname → colname ≠ right_on → colname ∈ dst →
  ∃ names i,
    Reconcile.autorename_column_names right_on dst src = Some names ∧
    names !! k = Some (suffixed colname i) ∧
    1 ≤ i ≤ length dst.
Proof.
  intros Hk Hkey Hin.
  destruct (autorename_column_names_Some right_on dst src) as [names Hnames].
  pose proof Hnames as [_ Hlook]%autorename_loop_lookup.
  specialize (Hlook _ _ Hk). unfold autorename_one in Hlook.
  rewrite bool_decide_eq_false_2 in Hlook by done.
  rewrite bool_decide_eq_false_2 in Hlook by (by intros Hout).
  destruct (rename_loop (enough_fuel dst) 0 colname dst) as [name|] eqn:Hloop.
  - apply rename_loop_Some in Hloop as (i & Hi & -> & Hout & Hbelow).
    exists names, i. split_and!; [done|done|lia|].
    pose proof (suffixed_inj colname) as Hinj.
    assert (colname :: (suffixed colname <$> seq 1 (i - 1)) ⊆+ dst) as Hsub.
    { apply NoDup_submseteq.
      - apply NoDup_cons. split.
        + intros (j & Hj & _)%list_elem_of_fmap. by apply (suffixed_neq_colname colname j).
        + apply (NoDup_fmap_2 _), NoDup_seq.
      - intros x [->|(j & -> & Hj%elem_of_seq)%list_elem_of_fmap]%elem_of_cons; [done|].
        apply Hbelow. lia. }
    apply submseteq_length in Hsub. simpl in Hsub.
    rewrite length_fmap, length_seq in Hsub. lia.
  - destruct (rename_loop_terminates (enough_fuel dst) 0 colname dst) as [? Hsome].
    + unfold enough_fuel. lia.
    + congruence.
Qed.

Lemma rename_suffix_bounded_by_destination_witness :
  ∃ names i,
    Reconcile.autorename_column_names "id" ["id"; "name"; "name_1"] ["id"; "name"]
      = Some names ∧
    names !! 1 = Some (suffixed "name" i) ∧
    1 ≤ i ≤ length ["id"; "name"; "name_1"].
Proof.
  apply (rename_suffix_bounded_by_destination "id" ["id"; "name"; "name_1"]
           ["id"; "name"] 1 "name").
  - reflexivity.
  - discriminate.
  - apply (bool_decide_unpack _). vm_compute. exact I.
Defined.

(** X5.  Under the override policy, once the listed columns are dropped the
    destination shares no column name with the source except [left_on]: a
    destination column that is not listed and also names a source column is
    [left_on]. *)
Theorem override_leaves_only_key_shared
    (left_on : string) (dst src : list string) (c : string) :
  c ∈ dst → c ∈ src →
  c ∉ Reconcile.override_columns_names left_on dst src →
  c = left_on.
Proof.
  intros Hdst Hsrc Hkept.
  destruct (decide (c = left_on)) as [|Hne]; [done|].
  exfalso. apply Hkept, elem_of_override_columns_names. done.
Qed.

Lemma override_leaves_only_key_shared_witness :
  ("id" ∉ Reconcile.override_columns_names "id" ["id"; "name"; "age"] ["id"; "name"]) ∧
  "id" = "id".
Proof.
  assert ("id" ∉ Reconcile.override_columns_names "id" ["id"; "name"; "age"]
            ["id"; "name"]) as Hkept.
  { apply (bool_decide_unpack _). vm_compute. exact I. }
  split; [exact Hkept|].
  apply (override_leaves_only_key_shared "id" ["id"; "name"; "age"] ["id"; "name"] "id").
  - apply (bool_decide_unpack _). vm_compute. exact I.
  - apply (bool_decide_unpack _). vm_compute. exact I.
  - exact Hkept.
Defined.

End MoreReconcile.

(** ** More on the matrix views *)

Section MoreMatrixOps.
Context `{B : Backend}.
Implicit Types (w : World) (user : User) (pk : Z) (request : Request).

Lemma ops_get_object_unknown w user pk :
  unknown_for w user pk → refused_as_unknown w user pk (MatrixOps.get_object user pk w).
Proof.
  unfold unknown_for, refused_as_unknown, MatrixOps.get_object, call_workflow_get,
    bind, emit, read. simpl. by intros ->.
Qed.

Lemma merge_get_object_unknown w user pk :
  unknown_for w user pk → refused_as_unknown w user pk (MatrixMerge.get_object user pk w).
Proof.
  unfold unknown_for, refused_as_unknown, MatrixMerge.get_object, call_workflow_get,
    bind, emit, read. simpl. by intros ->.
Qed.

(** X6.  When the lookup finds no workflow for the user -- none with that
    key, or for anyone but a superuser none owned by the user -- GET, PUT
    and DELETE of the matrix and both merge endpoints raise 'Incorrect
    object'; the lock is not consulted and the data base is left as it
    was. *)
Theorem unknown_workflow_rejected w user pk request :
  unknown_for w user pk →
  refused_as_unknown w user pk (MatrixOps.get user request pk w) ∧
  refused_as_unknown w user pk (MatrixOps.put user request pk w) ∧
  refused_as_unknown w user pk (MatrixOps.delete user request pk w) ∧
  refused_as_unknown w user pk (MatrixMerge.get user request pk w) ∧
  refused_as_unknown w user pk (MatrixMerge.put user request pk w).
Proof.
  intros Hunknown.
  pose proof (ops_get_object_unknown _ _ _ Hunknown) as Hops.
  pose proof (merge_get_object_unknown _ _ _ Hunknown) as Hmerge.
  unfold refused_as_unknown in *.
  split_and!.
  - unfold MatrixOps.get, bind. by rewrite Hops.
  - unfold MatrixOps.put, MatrixOps.override, bind. by rewrite Hops.
  - unfold MatrixOps.delete, bind. by rewrite Hops.
  - unfold MatrixMerge.get, bind. by rewrite Hmerge.
  - unfold MatrixMerge.put, bind. by rewrite Hmerge.
Qed.

(** X7.  On a workflow open to the user, GET answers 200 with whatever the
    table store holds for the workflow -- nothing, when no table is stored
    -- and the merge view answers 200 with the same frame as [src_df]; both
    leave the data base as it was. *)
Theorem get_answers_with_stored_table w user pk request :
  open_for w user pk →
  MatrixOps.get user request pk w =
    (Ok {| body := FrameBody (load_from_db (db w) pk); status := HTTP_200_OK |},
     after_calls w (access_calls user pk ++ [LoadFrame pk])) ∧
  MatrixMerge.get user request pk w =
    (Ok {| body := MergeViewBody (load_from_db (db w) pk); status := HTTP_200_OK |},
     after_calls w (access_calls user pk ++ [LoadFrame pk])).
Proof.
  intros Hopen.
  destruct (ops_get_object_open _ _ _ Hopen) as [wf Hops].
  destruct (merge_get_object_open _ _ _ Hopen) as [wf' Hmerge].
  unfold after_calls. split.
  - unfold MatrixOps.get. unfold bind at 1. rewrite Hops.
    unfold call_load_from_db, bind, emit, read, ret. simpl. by rewrite <-app_assoc.
  - unfold MatrixMerge.get. unfold bind at 1. rewrite Hmerge.
    unfold call_load_from_db, bind, emit, read, ret. simpl. by rewrite <-app_assoc.
Qed.

(** X8.  PUT of the matrix is all or nothing.  Either the workflow is open
    to the user, the serializer accepts the payload and the frame is built:
    then the answer is 201 with the payload and the data base is the result
    of the one store call.  Or the data base is exactly as before, no call
    that writes was made, and the answer is an exception or status 400. *)
Theorem ops_put_all_or_nothing w user pk request :
  (∃ data df,
      open_for w user pk ∧
      DataFrameSerializer request = Some data ∧
      pd_DataFrame data ≫= detect_datetime_columns = Some df ∧
      MatrixOps.put user request pk w =
        (Ok {| body := WireBody data; status := HTTP_201_CREATED |},
         {| db := store_dataframe_in_db df pk (db w);
            log := log w ++ access_calls user pk ++ [StoreFrame pk df] |})) ∨
  (∃ evs,
      (MatrixOps.put user request pk w).2 = after_calls w evs ∧
      Forall (λ ev, is_write ev = false) evs ∧
      rejected (MatrixOps.put user request pk w).1).
Proof.
  unfold MatrixOps.put, MatrixOps.override, MatrixOps.get_object, after_calls,
    call_workflow_get, call_is_locked, call_store_dataframe_in_db,
    bind, emit, read, write, ret, raise, raise_if. simpl.
  destruct (Workflow_objects_get (db w) pk (lookup_filter user)) as [wf|] eqn:Hwf; simpl.
  2: { right. eexists. split_and!; [by rewrite <-?app_assoc|by repeat constructor|done]. }
  destruct (is_locked (db w) wf) eqn:Hlock; simpl.
  { right. eexists. split_and!; [by rewrite <-?app_assoc|by repeat constructor|done]. }
  destruct (DataFrameSerializer request) as [data|] eqn:Hdata; simpl.
  2: { right. eexists. split_and!; [by rewrite <-?app_assoc|by repeat constructor|done]. }
  destruct (pd_DataFrame data ≫= detect_datetime_columns) as [df|] eqn:Hdf; simpl.
  2: { right. eexists. split_and!; [by rewrite <-?app_assoc|by repeat constructor|done]. }
  left. exists data, df. split_and!; [by exists wf|done|done|].
  unfold access_calls. by rewrite <-?app_assoc.
Qed.

(** X9.  On a workflow open to the user, a payload that the serializer turns
    down is answered with status 400 and the serializer's errors, and a
    payload from which no frame can be built (or whose date columns cannot
    be detected) with [Http404]; in both cases nothing is stored. *)
Theorem ops_put_bad_payload w user pk request :
  open_for w user pk →
  (DataFrameSerializer request = None →
   MatrixOps.put user request pk w =
     (Ok {| body := ErrorsBody; status := HTTP_400_BAD_REQUEST |},
      after_calls w (access_calls user pk))) ∧
  (∀ data, DataFrameSerializer request = Some data →
           pd_DataFrame data ≫= detect_datetime_columns = None →
   MatrixOps.put user request pk w =
     (Raise Http404, after_calls w (access_calls user pk))).
Proof.
  intros Hopen. rewrite (ops_put_open _ _ _ _ Hopen). unfold after_calls. split.
  - by intros ->.
  - by intros data -> ->.
Qed.

(** X10.  On a workflow without a stored table POST is PUT with one more
    call at the front: the answer and the resulting data base are those of
    PUT, and the log is that of PUT after the load. *)
Theorem post_on_empty_workflow_is_put w user pk request :
  load_from_db (db w) pk = None →
  ∃ d evs,
    MatrixOps.put user request pk w =
      ((MatrixOps.put user request pk w).1, {| db := d; log := log w ++ evs |}) ∧
    MatrixOps.post user request pk w =
      ((MatrixOps.put user request pk w).1,
       {| db := d; log := log w ++ LoadFrame pk :: evs |}).
Proof.
  intros Hnone.
  unfold MatrixOps.post, MatrixOps.put, MatrixOps.override, MatrixOps.get_object,
    call_load_from_db, call_workflow_get, call_is_locked, call_store_dataframe_in_db,
    bind, emit, read, write, ret, raise, raise_if. simpl. rewrite Hnone. simpl.
  destruct (Workflow_objects_get (db w) pk (lookup_filter user)) as [wf|]; simpl;
    [|eexists _, _; split; by rewrite <-?app_assoc].
  destruct (is_locked (db w) wf); simpl;
    [eexists _, _; split; by rewrite <-?app_assoc|].
  destruct (DataFrameSerializer request) as [data|]; simpl;
    [|eexists _, _; split; by rewrite <-?app_assoc].
  destruct (pd_DataFrame data ≫= detect_datetime_columns) as [df|]; simpl;
    eexists _, _; split; by rewrite <-?app_assoc.
Qed.

(** X11.  Over a table store that hands back what was stored under a key,
    a POST that was answered 201 cannot be repeated: the next POST to the
    same workflow is refused because a matrix is there, and changes
    nothing. *)
Theorem second_post_is_refused w user pk request resp :
  (∀ df d, is_Some (load_from_db (store_dataframe_in_db df pk d) pk)) →
  (MatrixOps.post user request pk w).1 = Ok resp →
  status resp = HTTP_201_CREATED →
  let w' := (MatrixOps.post user request pk w).2 in
  (MatrixOps.post user request pk w').1 =
    Raise (APIException "Post request requires workflow without a matrix") ∧
  db (MatrixOps.post user request pk w').2 = db w'.
Proof.
  intros Hlaw Hok Hstatus. simpl.
  assert (is_Some (load_from_db (db (MatrixOps.post user request pk w).2) pk)) as Hstored.
  { revert Hok.
    unfold MatrixOps.post, MatrixOps.override, MatrixOps.get_object,
      call_load_from_db, call_workflow_get, call_is_locked, call_store_dataframe_in_db,
      bind, emit, read, write, ret, raise, raise_if. simpl.
    destruct (load_from_db (db w) pk) as [d|]; simpl; [done|].
    destruct (Workflow_objects_get (db w) pk (lookup_filter user)) as [wf|]; simpl; [|done].
    destruct (is_locked (db w) wf); simpl; [done|].
    destruct (DataFrameSerializer request) as [data|]; simpl.
    - destruct (pd_DataFrame data ≫= detect_datetime_columns) as [df|]; simpl; [|done].
      intros _. apply Hlaw.
    - intros [= <-]. done. }
  by rewrite (post_with_stored_table _ _ _ _ Hstored).
Qed.

(** X12.  DELETE on a workflow open to the user hands the workflow to
    [detach_dataframe] and answers 204 with no body.  The stored table is
    not looked at, so the answer is the same whether or not there is one. *)
Theorem delete_detaches_table w user pk request :
  open_for w user pk →
  ∃ wf,
    Workflow_objects_get (db w) pk (lookup_filter user) = Some wf ∧
    MatrixOps.delete user request pk w =
      (Ok {| body := NoBody; status := HTTP_204_NO_CONTENT |},
       {| db := detach_dataframe wf (db w);
          log := log w ++ access_calls user pk ++ [DetachFrame pk] |}).
Proof.
  intros (wf & Hwf & Hlock). exists wf. split; [done|].
  unfold MatrixOps.delete, MatrixOps.get_object, call_workflow_get, call_is_locked,
    call_detach_dataframe, bind, emit, read, write, ret, raise_if. simpl.
  rewrite Hwf. simpl. rewrite Hlock. simpl.
  unfold access_calls. by rewrite <-?app_assoc.
Qed.

(** X13.  The two GET handlers never write: in every state the data base
    after the request is the data base before it, and the log gains no
    store, detach or merge call. *)
Theorem get_never_writes w user pk request :
  (∃ evs, (MatrixOps.get user request pk w).2 = after_calls w evs ∧
          Forall (λ ev, is_write ev = false) evs) ∧
  (∃ evs, (MatrixMerge.get user request pk w).2 = after_calls w evs ∧
          Forall (λ ev, is_write ev = false) evs).
Proof.
  unfold MatrixOps.get, MatrixMerge.get, MatrixOps.get_object, MatrixMerge.get_object,
    after_calls, call_workflow_get, call_is_locked, call_load_from_db,
    bind, emit, read, ret, raise, raise_if. simpl.
  destruct (Workflow_objects_get (db w) pk (lookup_filter user)) as [wf|]; simpl.
  - destruct (is_locked (db w) wf); simpl;
      split; eexists; (split; [by rewrite <-?app_assoc|by repeat constructor]).
  - split; eexists; (split; [by rewrite <-?app_assoc|by repeat constructor]).
Qed.

End MoreMatrixOps.

(** ** More on the merge view *)

Section MoreMatrixMerge.
Context `{B : Backend}.
Implicit Types (w : World) (user : User) (pk : Z) (request : Request).

Lemma not_allowed (x : string) (allowed : list string) :
  x ∉ allowed →
  bool_decide (x = EmptyString) || bool_decide (x ∉ allowed) = true.
Proof.
  intros Hout. apply orb_true_intro. right. by apply bool_decide_eq_true_2.
Qed.

(** The merge view up to the point where the request has been read: the
    workflow is open, the serializer accepts the request and the source
    frame is built. *)
Ltac enter_merge_put Hopen Hdata Hsrc :=
  apply merge_get_object_open in Hopen as [? Hopen];
  unfold MatrixMerge.put; unfold bind at 1; rewrite Hopen;
  unfold after_calls, access_calls, call_load_from_db, call_is_unique_column,
    getitem, bind, emit, read, ret, raise, raise_if; simpl;
  rewrite Hdata, Hsrc; simpl.

(** X14.  Merging into a workflow that has no stored table does not give an
    error response: once the request is read and the join type accepted,
    the key lookup [dst_df[left_on]] is made on [None] and the [TypeError]
    escapes the view. *)
Theorem merge_into_empty_workflow_raises_TypeError w user pk request data src :
  open_for w user pk →
  load_from_db (db w) pk = None →
  DataFrameMergeSerializer request = Some data →
  pd_DataFrame (src_df data) = Some src →
  how data ∈ ["left"; "right"; "outer"; "inner"] →
  MatrixMerge.put user request pk w =
    (Raise TypeError, after_calls w (access_calls user pk ++ [LoadFrame pk])).
Proof.
  intros Hopen Hdst Hdata Hsrc Hhow.
  enter_merge_put Hopen Hdata Hsrc.
  rewrite (allowed_how _ _ Hhow empty_not_join_type). simpl.
  rewrite Hdst. simpl. by rewrite <-?app_assoc.
Qed.

(** X15.  The join type is checked first: a request whose [how] is not
    left, right, outer or inner (the empty string included) is refused with
    the message about [how] whatever its keys and policy are and whatever
    the workflow holds, before any key column is looked up. *)
Theorem bad_join_type_reported_first w user pk request data src :
  open_for w user pk →
  DataFrameMergeSerializer request = Some data →
  pd_DataFrame (src_df data) = Some src →
  how data ∉ ["left"; "right"; "outer"; "inner"] →
  MatrixMerge.put user request pk w =
    (Raise (APIException "how must be one of left, right, outer or inner"),
     after_calls w (access_calls user pk ++ [LoadFrame pk])).
Proof.
  intros Hopen Hdata Hsrc Hhow.
  enter_merge_put Hopen Hdata Hsrc.
  rewrite (not_allowed _ _ Hhow). simpl. by rewrite <-?app_assoc.
Qed.

(** X16.  A destination key column that is not unique stops the request
    with the message built from [left_on] (the code puts no blank around
    the column name); the source key and the policy are not examined: the
    log holds a single uniqueness check. *)
Theorem left_key_not_unique_reported w user pk request data d src dst_key :
  open_for w user pk →
  load_from_db (db w) pk = Some d →
  DataFrameMergeSerializer request = Some data →
  pd_DataFrame (src_df data) = Some src →
  how data ∈ ["left"; "right"; "outer"; "inner"] →
  find_column (left_on data) (frame_columns d) = Some dst_key →
  is_unique_column dst_key = false →
  MatrixMerge.put user request pk w =
    (Raise (APIException ("column" +:+ left_on data +:+ "does not contain a unique key.")),
     after_calls w (access_calls user pk ++ [LoadFrame pk; UniqueCheck dst_key])).
Proof.
  intros Hopen Hdst Hdata Hsrc Hhow Hleft Hlu.
  enter_merge_put Hopen Hdata Hsrc.
  rewrite (allowed_how _ _ Hhow empty_not_join_type). simpl.
  rewrite Hdst. simpl. rewrite Hleft. simpl. rewrite Hlu. simpl.
  by rewrite <-?app_assoc.
Qed.

(** X17.  With the destination key in order, a [right_on] that is not a
    column of the source is refused with 'column ... not found in data
    frame'; the source is not asked for the column. *)
Theorem missing_right_key_reported w user pk request data d src dst_key :
  open_for w user pk →
  load_from_db (db w) pk = Some d →
  DataFrameMergeSerializer request = Some data →
  pd_DataFrame (src_df data) = Some src →
  how data ∈ ["left"; "right"; "outer"; "inner"] →
  find_column (left_on data) (frame_columns d) = Some dst_key →
  is_unique_column dst_key = true →
  right_on data ∉ columns src →
  MatrixMerge.put user request pk w =
    (Raise (APIException ("column " +:+ right_on data +:+ " not found in data frame")),
     after_calls w (access_calls user pk ++ [LoadFrame pk; UniqueCheck dst_key])).
Proof.
  intros Hopen Hdst Hdata Hsrc Hhow Hleft Hlu Hright.
  enter_merge_put Hopen Hdata Hsrc.
  rewrite (allowed_how _ _ Hhow empty_not_join_type). simpl.
  rewrite Hdst. simpl. rewrite Hleft. simpl. rewrite Hlu. simpl.
  rewrite (bool_decide_eq_true_2 _ Hright). simpl.
  by rewrite <-?app_assoc.
Qed.

(** X18.  With the destination key in order, a source key column that is
    not unique stops the request with the message built from [right_on];
    the policy is not examined. *)
Theorem right_key_not_unique_reported w user pk request data d src dst_key src_key :
  open_for w user pk →
  load_from_db (db w) pk = Some d →
  DataFrameMergeSerializer request = Some data →
  pd_DataFrame (src_df data) = Some src →
  how data ∈ ["left"; "right"; "outer"; "inner"] →
  find_column (left_on data) (frame_columns d) = Some dst_key →
  is_unique_column dst_key = true →
  find_column (right_on data) (frame_columns src) = Some src_key →
  is_unique_column src_key = false →
  MatrixMerge.put user request pk w =
    (Raise (APIException ("column" +:+ right_on data +:+ "does not contain a unique key.")),
     after_calls w (access_calls user pk ++
                    [LoadFrame pk; UniqueCheck dst_key; UniqueCheck src_key])).
Proof.
  intros Hopen Hdst Hdata Hsrc Hhow Hleft Hlu Hright Hru.
  enter_merge_put Hopen Hdata Hsrc.
  rewrite (allowed_how _ _ Hhow empty_not_join_type). simpl.
  rewrite Hdst. simpl. rewrite Hleft. simpl. rewrite Hlu. simpl.
  rewrite bool_decide_eq_false_2; simpl.
  2: { intros Hout. apply Hout, find_column_Some. by rewrite Hright. }
  rewrite Hright. simpl. rewrite Hru. simpl.
  by rewrite <-?app_assoc.
Qed.

(** X19.  The policy is checked last: a [dup_column] that is neither
    override nor rename (the empty string included) is reported only for a
    request whose join type and two keys have passed, after both uniqueness
    checks have been made. *)
Theorem bad_policy_reported_last w user pk request data d src dst_key src_key :
  open_for w user pk →
  load_from_db (db w) pk = Some d →
  DataFrameMergeSerializer request = Some data →
  pd_DataFrame (src_df data) = Some src →
  how data ∈ ["left"; "right"; "outer"; "inner"] →
  find_column (left_on data) (frame_columns d) = Some dst_key →
  is_unique_column dst_key = true →
  find_column (right_on data) (frame_columns src) = Some src_key →
  is_unique_column src_key = true →
  dup_column data ∉ ["override"; "rename"] →
  MatrixMerge.put user request pk w =
    (Raise (APIException "dup_column must be override or rename"),
     after_calls w (access_calls user pk ++
                    [LoadFrame pk; UniqueCheck dst_key; UniqueCheck src_key])).
Proof.
  intros Hopen Hdst Hdata Hsrc Hhow Hleft Hlu Hright Hru Hdup.
  enter_merge_put Hopen Hdata Hsrc.
  rewrite (allowed_how _ _ Hhow empty_not_join_type). simpl.
  rewrite Hdst. simpl. rewrite Hleft. simpl. rewrite Hlu. simpl.
  rewrite bool_decide_eq_false_2; simpl.
  2: { intros Hout. apply Hout, find_column_Some. by rewrite Hright. }
  rewrite Hright. simpl. rewrite Hru. simpl.
  rewrite (not_allowed _ _ Hdup). simpl.
  by rewrite <-?app_assoc.
Qed.

(** X20.  What the merge executor is given for a request that passes every
    check: the join type and the two keys of the request, the source
    columns twice (as initial and as final names) and one [True] per source
    column; under the override policy no rename list, under the rename
    policy a rename list with one name per source column and an empty list
    of columns to drop. *)
Theorem merge_info_lists_aligned w user pk request data d src dst_key src_key :
  Validated w user pk request data d src dst_key src_key →
  ∃ info,
    last (log (MatrixMerge.put user request pk w).2) = Some (PerformMerge pk info) ∧
    aligned data src info.
Proof.
  intros Hvalid.
  pose proof (v_dup _ _ _ _ _ _ _ _ _ Hvalid) as Hdup.
  apply merge_put_validated in Hvalid as (plan & Hplan & Hput). simpl in Hput.
  eexists. split.
  - rewrite Hput. simpl. unfold merge_calls. by rewrite !last_app.
  - destruct (reconcile_plan _ _ _ _ w Hdup (Hplan w))
      as [[Hpolicy ->]|(Hpolicy & names & Hnames & ->)].
    + unfold aligned. simpl. split_and!; [done..|]. by left.
    + unfold aligned. simpl. split_and!; [done..|]. right.
      split_and!; [done|done|]. exists names. split; [done|].
      by apply autorename_loop_lookup in Hnames as [Hlen _].
Qed.

End MoreMatrixMerge.

(** ** More on restricted file uploads *)

Section MoreRestrictedFile.
Import Forms.
Variable version : PyVersion.
Variable filesizeformat : PyVal → string.

(** X21.  [clean] never changes the value it checks: whenever it returns,
    it returns the very value that [super().clean] produced. *)
Theorem clean_returns_its_argument (self : RestrictedFileField) (data data' : Cleaned) :
  clean version filesizeformat self data = Ok data' → data' = data.
Proof.
  unfold clean. intros Hclean.
  repeat case_match; by simplify_eq.
Qed.

(** X22.  A field with a list of allowed types and an integer limit, on a
    value that has a content type: a type outside the list gives the 'not
    supported' error naming the type; an allowed type with a size above the
    limit gives the 'File size must be under' error; an allowed type with a
    size up to the limit, or with no size at all, comes back unchanged. *)
Theorem clean_with_types_and_integer_limit
    (allowed : list string) (limit : Z) (data : Cleaned) (ct : string) :
  content_type data = Some ct →
  let self := {| content_types := Some allowed; max_upload_size := PyInt limit |} in
  (ct ∉ allowed →
   clean version filesizeformat self data
     = Raise (ValidationError ("File type (" +:+ ct +:+ ") is not supported."))) ∧
  (ct ∈ allowed → ∀ sz, size data = Some sz → (limit < sz)%Z →
   clean version filesizeformat self data
     = Raise (ValidationError
                ("File size must be under " +:+ filesizeformat (PyInt limit)
                 +:+ ". Current file size is " +:+ filesizeformat (PyInt sz) +:+ "."))) ∧
  (ct ∈ allowed → ∀ sz, size data = Some sz → (sz ≤ limit)%Z →
   clean version filesizeformat self data = Ok data) ∧
  (ct ∈ allowed → size data = None →
   clean version filesizeformat self data = Ok data).
Proof.
  intros Hct. simpl. unfold clean. rewrite Hct. simpl. split_and!.
  - intros Hout. by rewrite bool_decide_eq_false_2.
  - intros Hin sz -> Hlt. rewrite bool_decide_eq_true_2 by done. simpl.
    by rewrite (proj2 (Z.ltb_lt _ _) Hlt).
  - intros Hin sz -> Hle. rewrite bool_decide_eq_true_2 by done. simpl.
    by rewrite (proj2 (Z.ltb_ge _ _) Hle).
  - intros Hin ->. by rewrite bool_decide_eq_true_2.
Qed.


(** X24.  A field built without [content_types] cannot check any upload:
    for every value that has a content type the membership test is made on
    [None] and the [TypeError] escapes. *)
Theorem clean_without_allowed_types_raises_TypeError
    (limit : PyVal) (data : Cleaned) (ct : string) :
  content_type data = Some ct →
  clean version filesizeformat
    {| content_types := None; max_upload_size := limit |} data = Raise TypeError.
Proof. unfold clean. by intros ->. Qed.

End MoreRestrictedFile.

(** ** The routes of the data operations *)

Section Routes.
Import Urls.

Lemma resolve_Some patterns path p :
  resolve patterns path = Some p → p ∈ patterns ∧ matches (body_of p) path = true.
Proof.
  induction patterns as [|q patterns IH]; simpl; [done|].
  destruct (matches (body_of q) path) eqn:Hq.
  - intros [= <-]. split; [apply list_elem_of_here|done].
  - intros [Hin Hm]%IH. split; [by apply list_elem_of_further|done].
Qed.

(** X25.  No route hides another: a path resolves to a pattern exactly
    when that pattern is in [urlpatterns] and its regular expression
    matches the path, wherever the pattern stands in the list.  In
    particular every pattern is reached at its own literal path, and the
    nine route names are pairwise distinct. *)
Theorem routes_do_not_overlap (path : string) (p : UrlPattern) :
  (resolve urlpatterns path = Some p
   ↔ p ∈ urlpatterns ∧ matches (body_of p) path = true) ∧
  (p ∈ urlpatterns → resolve urlpatterns (body_of p) = Some p) ∧
  NoDup (name_of <$> urlpatterns).
Proof.
  assert (p ∈ urlpatterns → matches (body_of p) path = true →
          resolve urlpatterns path = Some p) as Hback.
  { intros Hin Hm. unfold matches in Hm.
    apply orb_prop in Hm as [Hm|Hm]; apply bool_decide_eq_true in Hm; subst path;
      unfold urlpatterns in Hin;
      repeat (apply elem_of_cons in Hin as [->|Hin]; [vm_compute; reflexivity|]);
      by apply elem_of_nil in Hin. }
  split_and!.
  - split; [apply resolve_Some|]. intros [Hin Hm]. by apply Hback.
  - intros Hin.
    unfold urlpatterns in Hin;
      repeat (apply elem_of_cons in Hin as [->|Hin]; [vm_compute; reflexivity|]);
      by apply elem_of_nil in Hin.
  - apply (bool_decide_unpack _). vm_compute. exact I.
Qed.

End Routes.

(** ** The further properties on concrete requests *)

Section MoreExamples.
Import Demo Demo2 Forms.

Lemma alice_open_1 : open_for w0 alice 1.
Proof. exists 1%Z. split; vm_compute; reflexivity. Defined.

Lemma alice_open_3 : open_for w0 alice 3.
Proof. exists 3%Z. split; vm_compute; reflexivity. Defined.

Lemma alice_open_5 : open_for w2 alice 5.
Proof. exists 5%Z. split; vm_compute; reflexivity. Defined.

Lemma left_is_join_type : "left" ∈ ["left"; "right"; "outer"; "inner"].
Proof. apply (bool_decide_unpack _). vm_compute. exact I. Defined.

(** Workflow 1 is not bob's. *)
Lemma unknown_workflow_rejected_witness :
  refused_as_unknown w0 bob 1 (MatrixOps.get bob Malformed 1 w0) ∧
  refused_as_unknown w0 bob 1 (MatrixOps.put bob Malformed 1 w0) ∧
  refused_as_unknown w0 bob 1 (MatrixOps.delete bob Malformed 1 w0) ∧
  refused_as_unknown w0 bob 1 (MatrixMerge.get bob Malformed 1 w0) ∧
  refused_as_unknown w0 bob 1 (MatrixMerge.put bob Malformed 1 w0).
Proof.
  apply (unknown_workflow_rejected w0 bob 1 Malformed).
  vm_compute. reflexivity.
Defined.

Lemma get_answers_with_stored_table_witness :
  MatrixOps.get alice Malformed 3 w0 =
    (Ok {| body := FrameBody (load_from_db (db w0) 3); status := HTTP_200_OK |},
     after_calls w0 (access_calls alice 3 ++ [LoadFrame 3])) ∧
  MatrixMerge.get alice Malformed 3 w0 =
    (Ok {| body := MergeViewBody (load_from_db (db w0) 3); status := HTTP_200_OK |},
     after_calls w0 (access_calls alice 3 ++ [LoadFrame 3])).
Proof.
  apply (get_answers_with_stored_table w0 alice 3 Malformed). exact alice_open_3.
Defined.

Lemma ops_put_bad_payload_witness :
  MatrixOps.put alice Malformed 1 w0 =
    (Ok {| body := ErrorsBody; status := HTTP_400_BAD_REQUEST |},
     after_calls w0 (access_calls alice 1)) ∧
  MatrixOps.put alice (FramePayload ragged) 1 w0 =
    (Raise Http404, after_calls w0 (access_calls alice 1)).
Proof.
  split.
  - apply (proj1 (ops_put_bad_payload w0 alice 1 Malformed alice_open_1)).
    reflexivity.
  - apply (proj2 (ops_put_bad_payload w0 alice 1 (FramePayload ragged) alice_open_1) ragged).
    + reflexivity.
    + vm_compute. reflexivity.
Defined.

Lemma post_on_empty_workflow_is_put_witness :
  ∃ d evs,
    MatrixOps.put alice (FramePayload incoming) 3 w0 =
      ((MatrixOps.put alice (FramePayload incoming) 3 w0).1,
       {| db := d; log := log w0 ++ evs |}) ∧
    MatrixOps.post alice (FramePayload incoming) 3 w0 =
      ((MatrixOps.put alice (FramePayload incoming) 3 w0).1,
       {| db := d; log := log w0 ++ LoadFrame 3 :: evs |}).
Proof.
  apply (post_on_empty_workflow_is_put w0 alice 3 (FramePayload incoming)).
  vm_compute. reflexivity.
Defined.

Lemma second_post_is_refused_witness :
  let w' := (MatrixOps.post alice (FramePayload incoming) 3 w0).2 in
  (MatrixOps.post alice (FramePayload incoming) 3 w').1 =
    Raise (APIException "Post request requires workflow without a matrix") ∧
  db (MatrixOps.post alice (FramePayload incoming) 3 w').2 = db w'.
Proof.
  apply (second_post_is_refused w0 alice 3 (FramePayload incoming)
           {| body := WireBody incoming; status := HTTP_201_CREATED |}).
  - intros df d. exists df. apply lookup_insert_eq.
  - vm_compute. reflexivity.
  - reflexivity.
Defined.

Lemma delete_detaches_table_witness :
  ∃ wf,
    Workflow_objects_get (db w0) 3 (lookup_filter alice) = Some wf ∧
    MatrixOps.delete alice Malformed 3 w0 =
      (Ok {| body := NoBody; status := HTTP_204_NO_CONTENT |},
       {| db := detach_dataframe wf (db w0);
          log := log w0 ++ access_calls alice 3 ++ [DetachFrame 3] |}).
Proof.
  apply (delete_detaches_table w0 alice 3 Malformed). exact alice_open_3.
Defined.

Lemma merge_into_empty_workflow_raises_TypeError_witness :
  MatrixMerge.put alice (merge_request "left" "id" "id" "rename") 3 w0 =
    (Raise TypeError, after_calls w0 (access_calls alice 3 ++ [LoadFrame 3])).
Proof.
  apply (merge_into_empty_workflow_raises_TypeError w0 alice 3
           (merge_request "left" "id" "id" "rename")
           (merge_data "left" "id" "id" "rename") {| frame_columns := incoming |}).
  - exact alice_open_3.
  - vm_compute. reflexivity.
  - reflexivity.
  - vm_compute. reflexivity.
  - exact left_is_join_type.
Defined.

Lemma bad_join_type_reported_first_witness :
  MatrixMerge.put alice (merge_request "sideways" "zz" "zz" "merge") 3 w0 =
    (Raise (APIException "how must be one of left, right, outer or inner"),
     after_calls w0 (access_calls alice 3 ++ [LoadFrame 3])).
Proof.
  apply (bad_join_type_reported_first w0 alice 3
           (merge_request "sideways" "zz" "zz" "merge")
           (merge_data "sideways" "zz" "zz" "merge") {| frame_columns := incoming |}).
  - exact alice_open_3.
  - reflexivity.
  - vm_compute. reflexivity.
  - apply (bool_decide_unpack _). vm_compute. exact I.
Defined.

Lemma left_key_not_unique_reported_witness :
  MatrixMerge.put alice (merge_request "left" "id" "id" "rename") 5 w2 =
    (Raise (APIException ("column" +:+ "id" +:+ "does not contain a unique key.")),
     after_calls w2 (access_calls alice 5 ++ [LoadFrame 5; UniqueCheck [SNum 7; SNum 7]])).
Proof.
  apply (left_key_not_unique_reported w2 alice 5
           (merge_request "left" "id" "id" "rename")
           (merge_data "left" "id" "id" "rename") roster {| frame_columns := incoming |}
           [SNum 7; SNum 7]).
  - exact alice_open_5.
  - vm_compute. reflexivity.
  - reflexivity.
  - vm_compute. reflexivity.
  - exact left_is_join_type.
  - vm_compute. reflexivity.
  - vm_compute. reflexivity.
Defined.

Lemma missing_right_key_reported_witness :
  MatrixMerge.put alice (merge_request "left" "id" "zz" "rename") 1 w0 =
    (Raise (APIException ("column " +:+ "zz" +:+ " not found in data frame")),
     after_calls w0 (access_calls alice 1 ++
                     [LoadFrame 1; UniqueCheck [SNum 1; SNum 2; SNum 3]])).
Proof.
  apply (missing_right_key_reported w0 alice 1
           (merge_request "left" "id" "zz" "rename")
           (merge_data "left" "id" "zz" "rename") people {| frame_columns := incoming |}
           [SNum 1; SNum 2; SNum 3]).
  - exact alice_open_1.
  - vm_compute. reflexivity.
  - reflexivity.
  - vm_compute. reflexivity.
  - exact left_is_join_type.
  - vm_compute. reflexivity.
  - vm_compute. reflexivity.
  - apply (bool_decide_unpack _). vm_compute. exact I.
Defined.

Lemma right_key_not_unique_reported_witness :
  MatrixMerge.put alice (MergePayload repeated_data) 1 w0 =
    (Raise (APIException ("column" +:+ "id" +:+ "does not contain a unique key.")),
     after_calls w0 (access_calls alice 1 ++
                     [LoadFrame 1; UniqueCheck [SNum 1; SNum 2; SNum 3];
                      UniqueCheck [SNum 2; SNum 2]])).
Proof.
  apply (right_key_not_unique_reported w0 alice 1 (MergePayload repeated_data)
           repeated_data people {| frame_columns := repeated |}
           [SNum 1; SNum 2; SNum 3] [SNum 2; SNum 2]).
  - exact alice_open_1.
  - vm_compute. reflexivity.
  - reflexivity.
  - vm_compute. reflexivity.
  - exact left_is_join_type.
  - vm_compute. reflexivity.
  - vm_compute. reflexivity.
  - vm_compute. reflexivity.
  - vm_compute. reflexivity.
Defined.

Lemma bad_policy_reported_last_witness :
  MatrixMerge.put alice (merge_request "left" "id" "id" "merge") 1 w0 =
    (Raise (APIException "dup_column must be override or rename"),
     after_calls w0 (access_calls alice 1 ++
                     [LoadFrame 1; UniqueCheck [SNum 1; SNum 2; SNum 3];
                      UniqueCheck [SNum 2; SNum 4]])).
Proof.
  apply (bad_policy_reported_last w0 alice 1
           (merge_request "left" "id" "id" "merge")
           (merge_data "left" "id" "id" "merge") people {| frame_columns := incoming |}
           [SNum 1; SNum 2; SNum 3] [SNum 2; SNum 4]).
  - exact alice_open_1.
  - vm_compute. reflexivity.
  - reflexivity.
  - vm_compute. reflexivity.
  - exact left_is_join_type.
  - vm_compute. reflexivity.
  - vm_compute. reflexivity.
  - vm_compute. reflexivity.
  - vm_compute. reflexivity.
  - apply (bool_decide_unpack _). vm_compute. exact I.
Defined.

Lemma merge_info_lists_aligned_witness :
  ∃ info,
    last (log (MatrixMerge.put alice (merge_request "left" "id" "id" "rename") 1 w0).2)
      = Some (PerformMerge 1 info) ∧
    aligned (merge_data "left" "id" "id" "rename") {| frame_columns := incoming |} info.
Proof.
  apply (merge_info_lists_aligned w0 alice 1 (merge_request "left" "id" "id" "rename")
           (merge_data "left" "id" "id" "rename") people {| frame_columns := incoming |}
           [SNum 1; SNum 2; SNum 3] [SNum 2; SNum 4]).
  exact demo_validated.
Defined.

Lemma clean_returns_its_argument_witness :
  clean Python2 plain_size
    {| content_types := Some ["text/csv"]; max_upload_size := PyInt 100 |}
    (csv_upload 10) = Ok (csv_upload 10) ∧
  csv_upload 10 = csv_upload 10.
Proof.
  assert (clean Python2 plain_size
            {| content_types := Some ["text/csv"]; max_upload_size := PyInt 100 |}
            (csv_upload 10) = Ok (csv_upload 10)) as Hclean.
  { vm_compute. reflexivity. }
  split; [exact Hclean|].
  exact (clean_returns_its_argument Python2 plain_size _ _ _ Hclean).
Defined.

Lemma clean_with_types_and_integer_limit_witness :
  let self := {| content_types := Some ["text/csv"]; max_upload_size := PyInt 100 |} in
  ("text/csv" ∉ ["text/csv"] →
   clean Python3 plain_size self (csv_upload 500)
     = Raise (ValidationError ("File type (" +:+ "text/csv" +:+ ") is not supported."))) ∧
  ("text/csv" ∈ ["text/csv"] → ∀ sz, size (csv_upload 500) = Some sz → (100 < sz)%Z →
   clean Python3 plain_size self (csv_upload 500)
     = Raise (ValidationError
                ("File size must be under " +:+ plain_size (PyInt 100)
                 +:+ ". Current file size is " +:+ plain_size (PyInt sz) +:+ "."))) ∧
  ("text/csv" ∈ ["text/csv"] → ∀ sz, size (csv_upload 500) = Some sz → (sz ≤ 100)%Z →
   clean Python3 plain_size self (csv_upload 500) = Ok (csv_upload 500)) ∧
  ("text/csv" ∈ ["text/csv"] → size (csv_upload 500) = None →
   clean Python3 plain_size self (csv_upload 500) = Ok (csv_upload 500)).
Proof.
  apply (clean_with_types_and_integer_limit Python3 plain_size ["text/csv"] 100
           (csv_upload 500) "text/csv").
  reflexivity.
Defined.


Lemma clean_without_allowed_types_raises_TypeError_witness :
  clean Python2 plain_size {| content_types := None; max_upload_size := PyInt 100 |}
    (csv_upload 10) = Raise TypeError.
Proof.
  apply (clean_without_allowed_types_raises_TypeError Python2 plain_size (PyInt 100)
           (csv_upload 10) "text/csv").
  reflexivity.
Defined.

End MoreExamples.
